(** * five-bells-connector: configuration resolver and ledger-plugin registry

    A shallow embedding of [src/lib/config.js] and [src/lib/multiledger.js].
    JavaScript values are a small inductive type, exceptions are an error
    monad, the process environment and the file system are a record read
    by the configuration code, and the library functions the code calls
    (JSON.parse, string-to-number conversion, five-bells-shared,
    five-bells-condition, the module loader) are the fields of a second
    record. *)

From Stdlib Require Import String Ascii List Bool Arith ZArith Lia.
From Stdlib Require Import PrimFloat SpecFloat FloatOps DecimalString.
Import ListNotations.
Open Scope string_scope.
Set Warnings "-inexact-float,-register-all".

(** ** JavaScript values *)

Inductive ObjKind := Plain | Array.

(** Objects and arrays carry their own properties in enumeration order; an
    array holds its elements under the keys "0", "1", ...  [VFrozen] is an
    object or array that [Object.freeze] has frozen: it reads as the
    object does, and none of its properties can be written or deleted.
    [VBuiltin] is a member that objects inherit from Object.prototype,
    given by its name: a function, or the prototype itself for
    "__proto__". *)
Inductive value :=
| VUndefined
| VNull
| VBool (b : bool)
| VNum (x : float)
| VStr (s : string)
| VBuffer (content : string)
| VObject (kind : ObjKind) (props : list (string * value))
| VFrozen (kind : ObjKind) (props : list (string * value))
| VBuiltin (name : string).

Definition props := list (string * value).

Inductive JsError :=
| Error (message : string)
| TypeError
| SyntaxError
| CannotFindModule (name : string).

Inductive Result (A : Type) :=
| Ok (a : A)
| Throw (e : JsError).
Arguments Ok {A} a.
Arguments Throw {A} e.

Definition bind {A B} (c : Result A) (k : A -> Result B) : Result B :=
  match c with
  | Ok a => k a
  | Throw e => Throw e
  end.

Declare Scope js_scope.
Delimit Scope js_scope with js.
Notation "x <- c ;; k" := (bind c (fun x => k))
  (at level 61, c at next level, right associativity) : js_scope.
Notation "c ;; k" := (bind c (fun _ => k))
  (at level 61, right associativity) : js_scope.
Notation "' p <- c ;; k" := (bind c (fun x => match x with p => k end))
  (at level 61, p pattern, c at next level, right associativity) : js_scope.
Open Scope js_scope.

(** [try { c } catch (e) { throw h(e) }] *)
Definition try_catch {A} (c : Result A) (h : JsError -> Result A) : Result A :=
  match c with
  | Ok a => Ok a
  | Throw e => h e
  end.

Definition failed {A} (c : Result A) : Prop := exists e, c = Throw e.

(** ToBoolean *)
Definition truthy (v : value) : bool :=
  match v with
  | VUndefined | VNull => false
  | VBool b => b
  | VNum x => negb (is_nan x || is_zero x)
  | VStr s => negb (s =? "")
  | VBuffer _ | VObject _ _ | VFrozen _ _ | VBuiltin _ => true
  end.

Definition is_undefined (v : value) : bool :=
  match v with
  | VUndefined => true
  | _ => false
  end.

(** A value of [process.env]: a string, or undefined when unset. *)
Definition of_env (o : option string) : value :=
  match o with
  | Some s => VStr s
  | None => VUndefined
  end.

(** [a || b] on an environment string and a literal *)
Definition or_default (o : option string) (d : string) : string :=
  match o with
  | Some s => if s =? "" then d else s
  | None => d
  end.

(** [a || b] and [a && b] on values; the right operand is evaluated only
    when it is needed. *)
Definition js_or (a : value) (b : Result value) : Result value :=
  if truthy a then Ok a else b.

Definition js_and (a : value) (b : Result value) : Result value :=
  if truthy a then b else Ok a.

(** [a || b] and [a && b] when the right operand cannot throw *)
Definition or_v (a b : value) : value := if truthy a then a else b.
Definition and_v (a b : value) : value := if truthy a then b else a.

(** ** Properties *)

Fixpoint lookup {A} (k : string) (ps : list (string * A)) : option A :=
  match ps with
  | [] => None
  | (k', v) :: r => if k' =? k then Some v else lookup k r
  end.

(** [o[k] = v]: in place when the key exists, appended otherwise *)
Fixpoint update {A} (k : string) (v : A) (ps : list (string * A)) : list (string * A) :=
  match ps with
  | [] => [(k, v)]
  | (k', v') :: r => if k' =? k then (k, v) :: r else (k', v') :: update k v r
  end.

Definition remove {A} (k : string) (ps : list (string * A)) : list (string * A) :=
  filter (fun kv => negb (fst kv =? k)) ps.

Definition index_key (i : nat) : string :=
  NilEmpty.string_of_uint (Nat.to_uint i).

Fixpoint index_from (i : nat) (l : list value) : props :=
  match l with
  | [] => []
  | v :: r => (index_key i, v) :: index_from (S i) r
  end.

(** An array literal *)
Definition mk_array (l : list value) : value := VObject Array (index_from 0 l).

Fixpoint chars (s : string) : list value :=
  match s with
  | EmptyString => []
  | String c r => VStr (String c EmptyString) :: chars r
  end.

(** The names of the members every object inherits from Object.prototype *)
Definition Object_prototype : list string :=
  [ "constructor"; "__proto__"; "hasOwnProperty"; "isPrototypeOf";
    "propertyIsEnumerable"; "toLocaleString"; "toString"; "valueOf";
    "__defineGetter__"; "__defineSetter__"; "__lookupGetter__";
    "__lookupSetter__" ].

(** What a name that is no own property reads as: the inherited member,
    or undefined. *)
Definition inherited (k : string) : value :=
  if existsb (String.eqb k) Object_prototype then VBuiltin k else VUndefined.

(** [o.k] and [o[k]]: a TypeError on null and undefined; on an object
    or array, frozen or not, the own property of that name, and
    otherwise what it inherits from Object.prototype; on a string the
    character at that index, and otherwise, as on any other value, what
    its wrapper inherits from Object.prototype.  The derived [length] of
    arrays and strings is read by [empty_length] only, and the members
    of Array.prototype and of the wrappers' own prototypes are not
    represented: none of them has one of the names this code reads as a
    fixed key, and where a key is computed (a ledger id) the statements
    are about own keys or about plain objects. *)
Definition get_prop (o : value) (k : string) : Result value :=
  match o with
  | VUndefined | VNull => Throw TypeError
  | VObject _ ps | VFrozen _ ps =>
      Ok (match lookup k ps with Some v => v | None => inherited k end)
  | VStr s =>
      Ok (match lookup k (index_from 0 (chars s)) with
          | Some c => c
          | None => inherited k
          end)
  | _ => Ok (inherited k)
  end.

(** [o.k = v] under 'use strict', for the names this code writes
    ([account] and [type]) on a credential, a value held by the
    credentials map: a TypeError on a frozen object, and on anything
    that is not an object. *)
Definition set_prop (o : value) (k : string) (v : value) : Result value :=
  match o with
  | VObject kd ps => Ok (VObject kd (update k v ps))
  | VFrozen _ _ => Throw TypeError
  | _ => Throw TypeError
  end.

(** [config.getIn([..., k])] on the object reached so far: undefined
    where [o.k] would throw *)
Definition getIn (o : value) (k : string) : value :=
  match get_prop o k with
  | Ok v => v
  | Throw _ => VUndefined
  end.

(** [delete o.k] under 'use strict': a TypeError when the property is
    an own property of a frozen object. *)
Definition delete_prop (o : value) (k : string) : Result value :=
  match o with
  | VObject kd ps => Ok (VObject kd (remove k ps))
  | VFrozen _ ps =>
      match lookup k ps with
      | Some _ => Throw TypeError
      | None => Ok o
      end
  | _ => Ok o
  end.

(** [Object.freeze] applied to a value and, recursively, to every
    property it holds *)
Fixpoint deep_freeze (v : value) : value :=
  match v with
  | VObject kd ps =>
      VFrozen kd ((fix each (l : list (string * value)) : list (string * value) :=
                     match l with
                     | [] => []
                     | (k, x) :: r => (k, deep_freeze x) :: each r
                     end) ps)
  | VFrozen kd ps =>
      VFrozen kd ((fix each (l : list (string * value)) : list (string * value) :=
                     match l with
                     | [] => []
                     | (k, x) :: r => (k, deep_freeze x) :: each r
                     end) ps)
  | _ => v
  end.

(** The (key, value) pairs that Object.keys and lodash's [_.mapValues]
    and [_.every] visit: the own properties of an object, the elements
    of an array, the characters of a string, nothing otherwise. *)
Definition entries (v : value) : props :=
  match v with
  | VObject _ ps | VFrozen _ ps => ps
  | VStr s => index_from 0 (chars s)
  | _ => []
  end.

(** lodash's [isLength]: the number is an integer from 0 to
    Number.MAX_SAFE_INTEGER, given here as a natural number. *)
Definition is_length (x : float) : option nat :=
  match Prim2SF x with
  | S754_zero _ => Some 0%nat
  | S754_finite false m e =>
      if (0 <=? e)%Z then
        if (Z.pos m * 2 ^ e <=? 9007199254740991)%Z
        then Some (Z.to_nat (Z.pos m * 2 ^ e))
        else None
      else if (Z.pos m mod 2 ^ (- e) =? 0)%Z
        then Some (Z.to_nat (Z.pos m / 2 ^ (- e)))
        else None
  | _ => None
  end.

(** The (key, value) pairs [_.forEach] visits.  lodash takes a plain
    object that has a [length] property holding a valid length for
    array-like: it visits the indices below that length, reading each as
    a property, and not the object's own keys.  Any other collection is
    visited as [entries] gives it. *)
Definition each_entries (v : value) : props :=
  match v with
  | VObject Plain ps | VFrozen Plain ps =>
      match lookup "length" ps with
      | Some (VNum x) =>
          match is_length x with
          | Some n =>
              map (fun i =>
                     (index_key i,
                      match lookup (index_key i) ps with
                      | Some c => c
                      | None => VUndefined
                      end))
                  (seq 0 n)
          | None => ps
          end
      | _ => ps
      end
  | _ => entries v
  end.

(** [!v.length] *)
Definition empty_length (v : value) : Result bool :=
  match v with
  | VUndefined | VNull => Throw TypeError
  | VObject Array ps | VFrozen Array ps =>
      Ok (match ps with [] => true | _ => false end)
  | VStr s => Ok (s =? "")
  | VObject Plain ps | VFrozen Plain ps =>
      Ok (negb (truthy (match lookup "length" ps with
                        | Some x => x
                        | None => VUndefined
                        end)))
  | _ => Ok true
  end.

(** [_.omitBy(o, _.isUndefined)]: a fresh plain object *)
Definition omitBy_isUndefined (ps : props) : value :=
  VObject Plain (filter (fun kv => negb (is_undefined (snd kv))) ps).

(** [_.assign(o, src)]: writes every property of [src] into [o] and
    returns [o].  lodash boxes a target that is not an object: the
    result then holds what the boxed value holds, the characters of a
    string say, and the properties written.  lodash does not run in
    strict mode, so that a frozen target is returned as it is. *)
Definition assign (o : value) (src : props) : Result value :=
  let write := fold_left (fun acc kv => update (fst kv) (snd kv) acc) src in
  match o with
  | VObject kd ps => Ok (VObject kd (write ps))
  | VFrozen kd ps => Ok (VFrozen kd ps)
  | _ => Ok (VObject Plain (write (entries o)))
  end.

(** [s.endsWith(suffix)] *)
Definition endsWith (s suffix : string) : bool :=
  (String.length suffix <=? String.length s)%nat &&
  (substring (String.length s - String.length suffix) (String.length suffix) s
     =? suffix).

(** ** The process and the libraries *)

(** What the configuration code reads from its process: environment
    variables, the command line, files (content, or the message of the
    error that opening the path raises) and the two JSON fixtures of the
    test directory. *)
Record World := {
  env : string -> option string;
  argv : list string;
  files : string -> string + string;
  test_ledgerCredentials : value;
  test_tradingPairs : value
}.

Record LedgerDesc := { currency : string; ledger : string }.

(** Library functions of the runtime and of the packages required by the
    two files.  [JSON_parse] is [None] on a SyntaxError; [ToNumber] is the
    string-to-number conversion of [+s] and [Number(s)]; [ToString] the
    conversion used by string concatenation; [castBool] is
    five-bells-shared's, given the variable and the default: the
    boolean it returns, or the error it throws on a value it does not
    expect; [validateCondition] is five-bells-condition's and yields the
    message of the error it throws, if any; [getPairs] is
    [Utils.getPairs] of lib/utils.js; [plugin_installed] tells whether
    the module loader resolves a module name. *)
Record Libs := {
  JSON_parse : string -> option value;
  ToNumber : string -> float;
  ToString : value -> string;
  castBool : option string -> bool -> Result bool;
  validateCondition : value -> option string;
  getPairs : list LedgerDesc -> list (list LedgerDesc);
  plugin_installed : string -> bool
}.

(** ** config.js *)

Module Config.

Record AdminEnv := {
  username : string;
  password : option string;
  key : option string;
  cert : option string;
  ca : option string
}.

Record Notifications := { must_verify : bool; keys : value }.
Record Expiry := { minMessageWindow : float; maxHoldTime : float }.
Record Features := { debugAutoFund : bool; debugReplyNotifications : bool }.

Record LocalConfig := {
  backend : string;
  ledgerCredentials : value;
  fxSpread : float;
  slippage : float;
  expiry : Expiry;
  features : Features;
  admin : value;
  tradingPairs : value;
  server : value;
  backendUri : value;
  notifications : Notifications;
  routeBroadcastInterval : float;
  routeCleanupInterval : float;
  routeExpiry : float
}.

Definition envPrefix : string := "CONNECTOR".

Definition DEFAULT_MIN_MESSAGE_WINDOW : float := 1.
Definition DEFAULT_MAX_HOLD_TIME : float := 10.
Definition DEFAULT_FX_SPREAD : float := 0.002.
Definition DEFAULT_SLIPPAGE : float := 0.001.
Definition DEFAULT_ROUTE_BROADCAST_INTERVAL : float := 30 * 1000.
Definition DEFAULT_ROUTE_CLEANUP_INTERVAL : float := 1000.
Definition DEFAULT_ROUTE_EXPIRY : float := 45 * 1000.

(** five-bells-shared's [Config.getEnv(prefix, name)]: the variable
    PREFIX_NAME of the environment *)
Definition getEnv (w : World) (prefix name : string) : option string :=
  env w (prefix ++ "_" ++ name).

(** [process.env.NAME === 'literal'] *)
Definition env_is (w : World) (name lit : string) : bool :=
  match env w name with
  | Some s => s =? lit
  | None => false
  end.

(** [fs.accessSync(path, fs.R_OK)]: the message of the error it throws *)
Definition accessSync (w : World) (path : value) : option string :=
  match path with
  | VStr p => match files w p with inl _ => None | inr msg => Some msg end
  | _ => Some "path must be a string or Buffer"
  end.

(** [fs.readFileSync(path)] *)
Definition readFileSync (w : World) (path : value) : Result value :=
  match path with
  | VStr p =>
      match files w p with
      | inl content => Ok (VBuffer content)
      | inr msg => Throw (Error msg)
      end
  | _ => Throw TypeError
  end.

(** [v && fs.accessSync(v, fs.R_OK)] *)
Definition guarded_access (w : World) (v : value) : option string :=
  if truthy v then accessSync w v else None.

(** The three guarded accesses of a try block, in order: the message of
    the first error caught. *)
Definition access_all (w : World) (cert key ca : value) : option string :=
  match guarded_access w cert with
  | Some m => Some m
  | None =>
      match guarded_access w key with
      | Some m => Some m
      | None => guarded_access w ca
      end
  end.

(** [_.forEach(collection, f)] for a callback that returns undefined *)
Fixpoint forEach (f : value -> string -> Result unit) (ps : props) : Result unit :=
  match ps with
  | [] => Ok tt
  | (k, v) :: r => f v k ;; forEach f r
  end.

(** [_.mapValues(collection, f)] *)
Fixpoint mapValues (f : value -> Result value) (ps : props) : Result props :=
  match ps with
  | [] => Ok []
  | (k, v) :: r =>
      v' <- f v ;;
      r' <- mapValues f r ;;
      Ok ((k, v') :: r')
  end.

(** [array.map(f)] *)
Fixpoint array_map {A} (f : value -> Result A) (l : list value) : Result (list A) :=
  match l with
  | [] => Ok []
  | v :: r =>
      a <- f v ;;
      r' <- array_map f r ;;
      Ok (a :: r')
  end.

(** [+s] and [Number(s)] on an environment string *)
Definition to_number (L : Libs) (o : option string) : float :=
  match o with
  | Some s => ToNumber L s
  | None => nan
  end.

(** [a || b] on numbers *)
Definition num_or (a b : float) : float :=
  if truthy (VNum a) then a else b.

(** Modelled from the spec: [Config.loadConfig] of five-bells-shared,
    which is not among the sources.  The configuration it returns is one
    immutable object: the local configuration with every object in it
    frozen.  The common settings it adds, which this code does not read,
    are not represented. *)
Definition loadConfig (localConfig : LocalConfig) : LocalConfig :=
  {| backend := backend localConfig;
     ledgerCredentials := deep_freeze (ledgerCredentials localConfig);
     fxSpread := fxSpread localConfig;
     slippage := slippage localConfig;
     expiry := expiry localConfig;
     features := features localConfig;
     admin := deep_freeze (admin localConfig);
     tradingPairs := deep_freeze (tradingPairs localConfig);
     server := deep_freeze (server localConfig);
     backendUri := backendUri localConfig;
     notifications :=
       {| must_verify := must_verify (notifications localConfig);
          keys := deep_freeze (keys (notifications localConfig)) |};
     routeBroadcastInterval := routeBroadcastInterval localConfig;
     routeCleanupInterval := routeCleanupInterval localConfig;
     routeExpiry := routeExpiry localConfig |}.

Section WithLibs.

Variable L : Libs.

Definition parse (text : string) : Result value :=
  match JSON_parse L text with
  | Some v => Ok v
  | None => Throw SyntaxError
  end.

Definition isRunningTests (w : World) : Result bool :=
  if env_is w "NODE_ENV" "unit" then Ok true
  else
    match argv w with
    | [] => Throw TypeError
    | a0 :: rest =>
        if endsWith a0 "mocha" then Ok true
        else
          Ok ((1 <? List.length (argv w))%nat && endsWith a0 "node" &&
              match rest with
              | a1 :: _ => endsWith a1 "mocha"
              | [] => false
              end)
    end.

Definition useTestConfig (w : World) : Result bool :=
  override <- castBool L (env w "UNIT_TEST_OVERRIDE") false ;;
  if override then Ok false else isRunningTests w.

Definition generateDefaultPairs (ledgers : list LedgerDesc) : value :=
  mk_array
    (map (fun pair =>
            mk_array (map (fun desc => VStr (currency desc ++ "@" ++ ledger desc)) pair))
         (getPairs L ledgers)).

Definition parseCredentialsEnv (w : World) : Result value :=
  parse (or_default (getEnv w envPrefix "CREDENTIALS") "{}").

(** The callback of [_.mapValues] in [parseCredentials] *)
Definition parseCredential (w : World) (credentials : value) : Result value :=
  k <- get_prop credentials "key" ;;
  if negb (is_undefined k) then
    key' <- readFileSync w k ;;
    c <- get_prop credentials "cert" ;;
    cert' <- readFileSync w c ;;
    a <- get_prop credentials "ca" ;;
    ca' <- js_and a (readFileSync w a) ;;
    o <- assign credentials [("key", key'); ("cert", cert'); ("ca", ca')] ;;
    Ok (omitBy_isUndefined (entries o))
  else
    a <- get_prop credentials "ca" ;;
    ca' <- js_and a (readFileSync w a) ;;
    o <- assign credentials [("ca", ca')] ;;
    Ok (omitBy_isUndefined (entries o)).

Definition parseCredentials (w : World) : Result value :=
  credentialsEnv <- parseCredentialsEnv w ;;
  ps <- mapValues (parseCredential w) (entries credentialsEnv) ;;
  Ok (VObject Plain ps).

Definition parseAdminEnv (w : World) : AdminEnv :=
  {| username := or_default (getEnv w envPrefix "ADMIN_USER") "admin";
     password := getEnv w envPrefix "ADMIN_PASS";
     key := getEnv w envPrefix "ADMIN_KEY";
     cert := getEnv w envPrefix "ADMIN_CERT";
     ca := getEnv w envPrefix "ADMIN_CA" |}.

(** The callback of [map] in [parseLedgers]; [indexOf] is -1 when there
    is no '@', and then [substr(0, -1)] is empty and [substr(0)] the whole
    string. *)
Definition parseLedger (l : value) : Result LedgerDesc :=
  match l with
  | VStr s =>
      match index 0 "@" s with
      | Some sep =>
          Ok {| currency := substring 0 sep s;
                ledger := substring (sep + 1) (String.length s - (sep + 1)) s |}
      | None => Ok {| currency := ""; ledger := s |}
      end
  | _ => Throw TypeError
  end.

Definition parseLedgers (w : World) : Result (list LedgerDesc) :=
  v <- parse (or_default (getEnv w envPrefix "LEDGERS") "[]") ;;
  match v with
  | VObject Array ps | VFrozen Array ps => array_map parseLedger (map snd ps)
  | _ => Throw TypeError
  end.

Definition parseNotificationSignEnv (w : World) : Result Notifications :=
  let isProduction := env_is w "NODE_ENV" "production" in
  mustVerify <-
    castBool L (getEnv w envPrefix "NOTIFICATION_VERIFY") isProduction ;;
  ks <- try_catch
          (parse (or_default (getEnv w envPrefix "NOTIFICATION_KEYS") "{}"))
          (fun _ => Throw (Error "Failed to parse CONNECTOR_NOTIFICATION_KEYS")) ;;
  Ok {| must_verify := mustVerify; keys := ks |}.

(** The callback of [_.forEach] in [validateCredentialsEnv] *)
Definition validateCredential (w : World) (credential : value) (ledger : string)
  : Result unit :=
  k <- get_prop credential "key" ;;
  p <- get_prop credential "password" ;;
  u <- get_prop credential "username" ;;
  c <- get_prop credential "cert" ;;
  acc <- get_prop credential "account_uri" ;;
  a <- get_prop credential "ca" ;;
  if is_undefined k && is_undefined p then
    Throw (Error ("Missing key or password for ledger: " ++ ledger))
  else if is_undefined u then
    Throw (Error ("Missing username for ledger: " ++ ledger))
  else if negb (Bool.eqb (is_undefined c) (is_undefined k)) then
    Throw (Error ("Missing certificate or key for ledger: " ++ ledger))
  else if is_undefined acc then
    Throw (Error ("Missing account_uri for ledger: " ++ ledger))
  else
    match access_all w c k a with
    | Some m =>
        Throw (Error ("Failed to read credentials for ledger " ++ ledger ++ ": " ++ m))
    | None => Ok tt
    end.

Definition validateCredentialsEnv (w : World) : Result unit :=
  credentials <- parseCredentialsEnv w ;;
  forEach (validateCredential w) (each_entries credentials).

Definition validateAdminEnv (w : World) : Result unit :=
  let admin := parseAdminEnv w in
  if negb (Bool.eqb (is_undefined (of_env (cert admin)))
                    (is_undefined (of_env (key admin)))) then
    Throw (Error "Missing ADMIN_CERT or ADMIN_KEY")
  else
    match access_all w (of_env (cert admin)) (of_env (key admin)) (of_env (ca admin)) with
    | Some m => Throw (Error ("Failed to read admin credentials: " ++ m))
    | None => Ok tt
    end.

(** The body of the [for ... of] loop in [validateNotificationEnv] *)
Definition validateNotificationKey (ks : value) (ledgerObj : LedgerDesc) : Result unit :=
  let uri := ledger ledgerObj in
  k <- get_prop ks uri ;;
  if is_undefined k then
    Throw (Error ("Missing notification signing keys for ledger: " ++ uri))
  else
    match validateCondition L k with
    | Some m =>
        Throw (Error ("Failed to read signing key for ledger " ++ uri ++ ": " ++ m))
    | None => Ok tt
    end.

Fixpoint for_of {A} (body : A -> Result unit) (l : list A) : Result unit :=
  match l with
  | [] => Ok tt
  | x :: r => body x ;; for_of body r
  end.

Definition validateNotificationEnv (w : World) : Result unit :=
  n <- parseNotificationSignEnv w ;;
  if must_verify n then
    ledgers <- parseLedgers w ;;
    for_of (validateNotificationKey (keys n)) ledgers
  else Ok tt.

Definition validateLocalEnvConfig (w : World) : Result unit :=
  validateNotificationEnv w ;;
  validateCredentialsEnv w ;;
  validateAdminEnv w.

(** [key && fs.readFileSync(key)] on an environment string *)
Definition read_if_set (w : World) (o : option string) : Result value :=
  js_and (of_env o) (readFileSync w (of_env o)).

Definition getLocalConfig (w : World) : Result LocalConfig :=
  validateLocalEnvConfig w ;;
  ledgers <- parseLedgers w ;;
  pairs <- parse (or_default (getEnv w envPrefix "PAIRS") "false") ;;
  let tradingPairs0 := or_v pairs (generateDefaultPairs ledgers) in
  autoFund <- castBool L (getEnv w envPrefix "DEBUG_AUTOFUND") false ;;
  replyNotifications <-
    castBool L (getEnv w envPrefix "DEBUG_REPLY_NOTIFICATIONS") false ;;
  let adminEnv := parseAdminEnv w in
  let useAdmin :=
    and_v (VStr (username adminEnv))
          (or_v (of_env (password adminEnv)) (of_env (key adminEnv))) in
  if autoFund && negb (truthy useAdmin) then
    Throw (Error (envPrefix ++ "_DEBUG_AUTOFUND requires either " ++ envPrefix
                  ++ "_ADMIN_PASS or " ++ envPrefix ++ "_ADMIN_KEY"))
  else
    admin0 <-
      (if truthy useAdmin then
         key' <- read_if_set w (key adminEnv) ;;
         cert' <- read_if_set w (cert adminEnv) ;;
         ca' <- read_if_set w (ca adminEnv) ;;
         Ok (omitBy_isUndefined
               [("username", VStr (username adminEnv));
                ("password", of_env (password adminEnv));
                ("key", key'); ("cert", cert'); ("ca", ca')])
       else Ok VUndefined) ;;
    let backend0 := or_default (getEnv w envPrefix "BACKEND") "fixerio" in
    let expiry0 :=
      {| minMessageWindow :=
           num_or (to_number L (getEnv w envPrefix "MIN_MESSAGE_WINDOW"))
                  DEFAULT_MIN_MESSAGE_WINDOW;
         maxHoldTime :=
           num_or (to_number L (getEnv w envPrefix "MAX_HOLD_TIME"))
                  DEFAULT_MAX_HOLD_TIME |} in
    let fxSpreadString := getEnv w envPrefix "FX_SPREAD" in
    let fxSpread0 :=
      if truthy (of_env fxSpreadString) then to_number L fxSpreadString
      else DEFAULT_FX_SPREAD in
    let slippageString := getEnv w envPrefix "SLIPPAGE" in
    let slippage0 :=
      if truthy (of_env slippageString) then to_number L slippageString
      else DEFAULT_SLIPPAGE in
    let backendUri0 := of_env (getEnv w envPrefix "BACKEND_URI") in
    let routeBroadcastInterval0 :=
      num_or (to_number L (getEnv w envPrefix "ROUTE_BROADCAST_INTERVAL"))
             DEFAULT_ROUTE_BROADCAST_INTERVAL in
    let routeCleanupInterval0 :=
      num_or (to_number L (getEnv w envPrefix "ROUTE_CLEANUP_INTERVAL"))
             DEFAULT_ROUTE_CLEANUP_INTERVAL in
    let routeExpiry0 :=
      num_or (to_number L (getEnv w envPrefix "ROUTE_EXPIRY"))
             DEFAULT_ROUTE_EXPIRY in
    test <- useTestConfig w ;;
    '(ledgerCredentials0, server0, tradingPairs1, replyNotifications1) <-
      (if test then
         empty <- empty_length tradingPairs0 ;;
         Ok (test_ledgerCredentials w,
             VObject Plain [("base_uri", VStr "http://localhost")],
             (if empty then test_tradingPairs w else tradingPairs0),
             true)
       else
         creds <- parseCredentials w ;;
         Ok (creds, VObject Plain [], tradingPairs0, replyNotifications)) ;;
    notifications0 <- parseNotificationSignEnv w ;;
    Ok {| backend := backend0;
          ledgerCredentials := ledgerCredentials0;
          fxSpread := fxSpread0;
          slippage := slippage0;
          expiry := expiry0;
          features := {| debugAutoFund := autoFund;
                         debugReplyNotifications := replyNotifications1 |};
          admin := admin0;
          tradingPairs := tradingPairs1;
          server := server0;
          backendUri := backendUri0;
          notifications := notifications0;
          routeBroadcastInterval := routeBroadcastInterval0;
          routeCleanupInterval := routeCleanupInterval0;
          routeExpiry := routeExpiry0 |}.

Definition loadConnectorConfig (w : World) : Result LocalConfig :=
  localConfig <- getLocalConfig w ;;
  Ok (loadConfig localConfig).

End WithLibs.

End Config.

(** ** multiledger.js *)

(** Modelled from the spec: the status constants of common/health.js, an
    enumerated set including "not ok" (initial) and "ok" (all ledgers
    connected). *)
Inductive HealthStatus := statusOk | statusNotOk.

Module Multiledger.

Record DebugAutofund := { admin : value; connector : value }.

(** The argument of a plugin constructor; [log] is the name the logger
    was made with. *)
Record PluginOptions := {
  id : string;
  auth : value;
  debugReplyNotifications : bool;
  debugAutofund : option DebugAutofund;
  log : string
}.

(** A ledger handle: the object [new LedgerPlugin(options)] of the module
    [plugin].  A plugin constructor keeps the options it is given. *)
Record LedgerPlugin := { plugin : string; options : PluginOptions }.

Record LogEntry := { logger : string; level : string; text : string }.

Record t := {
  config : Config.LocalConfig;
  ledgers : list (string * LedgerPlugin);
  ledgersHealth : HealthStatus
}.

Section Registry.

Variable L : Libs.

(** The connectivity each handle reports at the time of a poll *)
Variable isConnected : LedgerPlugin -> bool.

(** String concatenation with a value on the right *)
Definition concat_value (s : string) (v : value) : string :=
  s ++ match v with
       | VStr x => x
       | _ => ToString L v
       end.

(** [require(name)] of a plugin module *)
Definition require (name : string) : Result string :=
  if plugin_installed L name then Ok name else Throw (CannotFindModule name).

Definition deprecation : LogEntry :=
  {| logger := "multiledger";
     level := "warn";
     text := "DEPRECATED: The key `account_uri` in ledger credentials has been renamed `account`" |}.

(** The deprecated-key block of [buildLedgers]: the credentials after
    it, or the error of the statement that throws, and the lines logged
    up to there.  The warning is logged before the first write. *)
Definition migrate (creds : value) : Result value * list LogEntry :=
  match get_prop creds "account_uri" with
  | Throw e => (Throw e, [])
  | Ok account_uri =>
      if truthy account_uri then
        (creds1 <- set_prop creds "account" account_uri ;;
         delete_prop creds1 "account_uri",
         [deprecation])
      else (Ok creds, [])
  end.

(** The rest of the callback of [forEach] in [buildLedgers], from the
    default of [type] on. *)
Definition construct (cfg : Config.LocalConfig) (ledgerId : string) (creds : value)
  : Result LedgerPlugin :=
  ty <- get_prop creds "type" ;;
  creds1 <- set_prop creds "type" (or_v ty (VStr "bells")) ;;
  ty1 <- get_prop creds1 "type" ;;
  LedgerPlugin <- require (concat_value "ilp-plugin-" ty1) ;;
  Ok {| plugin := LedgerPlugin;
        options :=
          {| id := ledgerId;
             auth := creds1;
             debugReplyNotifications := Config.debugReplyNotifications (Config.features cfg);
             debugAutofund :=
               if Config.debugAutoFund (Config.features cfg)
               then Some {| admin := Config.admin cfg; connector := getIn (Config.server cfg) "base_uri" |}
               else None;
             log := concat_value "plugin-" ty1 |} |}.

(** One turn of the loop: what it logs, and the handle or the error. *)
Definition buildLedger (cfg : Config.LocalConfig) (ledgerId : string)
  : Result LedgerPlugin * list LogEntry :=
  let creds := getIn (Config.ledgerCredentials cfg) ledgerId in
  match migrate creds with
  | (Throw e, lines) => (Throw e, lines)
  | (Ok creds1, lines) => (construct cfg ledgerId creds1, lines)
  end.

Fixpoint forEach_key (cfg : Config.LocalConfig) (ids : list string)
  (acc : list (string * LedgerPlugin))
  : Result (list (string * LedgerPlugin)) * list LogEntry :=
  match ids with
  | [] => (Ok acc, [])
  | ledgerId :: rest =>
      match buildLedger cfg ledgerId with
      | (Throw e, lines) => (Throw e, lines)
      | (Ok handle, lines) =>
          let (r, lines') := forEach_key cfg rest (update ledgerId handle acc) in
          (r, (lines ++ lines')%list)
      end
  end.

(** [Object.keys(o)] *)
Definition Object_keys (o : value) : Result (list string) :=
  match o with
  | VUndefined | VNull => Throw TypeError
  | _ => Ok (map fst (entries o))
  end.

Definition buildLedgers (cfg : Config.LocalConfig)
  : Result (list (string * LedgerPlugin)) * list LogEntry :=
  match Object_keys (Config.ledgerCredentials cfg) with
  | Throw e => (Throw e, [])
  | Ok ids => forEach_key cfg ids []
  end.

(** [new Multiledger({config, log})] *)
Definition new (cfg : Config.LocalConfig) : Result t * list LogEntry :=
  match buildLedgers cfg with
  | (Throw e, lines) => (Throw e, lines)
  | (Ok ls, lines) =>
      (Ok {| config := cfg; ledgers := ls; ledgersHealth := statusNotOk |}, lines)
  end.

(** What [this.ledgers[ledgerId]] reads.  The registry is an object made
    by the literal [{}]: the handle registered under the id, or else the
    member of that name it inherits from Object.prototype, or else
    undefined. *)
Inductive Member :=
| Handle (handle : LedgerPlugin)
| Inherited (name : string)
| Undefined.

(** The methods take the registry and return their result with the
    registry they leave behind. *)
Definition getLedger (ledgerId : string) (this : t) : Member * t :=
  (match lookup ledgerId (ledgers this) with
   | Some handle => Handle handle
   | None =>
       match inherited ledgerId with
       | VBuiltin name => Inherited name
       | _ => Undefined
       end
   end,
   this).

Definition getLedgers (this : t) : list (string * LedgerPlugin) * t :=
  (ledgers this, this).

(** [this.getLedger(ledgerId).constructor.TYPE], where [TYPE] gives the
    static TYPE property of a plugin module.  The constructor of a handle
    is its plugin; the constructor of an inherited member is the built-in
    Function or Object, which has no TYPE; and reading the constructor of
    undefined throws. *)
Definition getType (TYPE : string -> value) (ledgerId : string) (this : t)
  : Result value * t :=
  match fst (getLedger ledgerId this) with
  | Handle handle => (Ok (TYPE (plugin handle)), this)
  | Inherited _ => (Ok VUndefined, this)
  | Undefined => (Throw TypeError, this)
  end.

(** [_.every(collection, predicate)] *)
Definition every {A} (p : A -> bool) (c : list (string * A)) : bool :=
  forallb (fun kv => p (snd kv)) c.

Definition getStatus (this : t) : bool * t :=
  (every isConnected (ledgers this), this).

End Registry.

End Multiledger.

(** ** A concrete process and concrete libraries

    The examples run the model on libraries that behave as the real ones
    do on the inputs of the examples. *)

Module Sample.

Definition quote : string := String "034"%char EmptyString.

(** [JSON.stringify] on the documents of the examples: strings free of
    escapes, booleans, null, arrays and objects (a number prints as null,
    as NaN does). *)
Fixpoint stringify (v : value) : string :=
  match v with
  | VBool true => "true"
  | VBool false => "false"
  | VStr s => quote ++ s ++ quote
  | VObject Plain ps =>
      "{" ++ (fix members (l : list (string * value)) : string :=
                match l with
                | [] => ""
                | [(k, x)] => quote ++ k ++ quote ++ ":" ++ stringify x
                | (k, x) :: r =>
                    quote ++ k ++ quote ++ ":" ++ stringify x ++ "," ++ members r
                end) ps ++ "}"
  | VObject Array ps =>
      "[" ++ (fix elements (l : list (string * value)) : string :=
                match l with
                | [] => ""
                | [(_, x)] => stringify x
                | (_, x) :: r => stringify x ++ "," ++ elements r
                end) ps ++ "]"
  | _ => "null"
  end.

Definition object (ps : props) : value := VObject Plain ps.

(** Credentials of the examples *)
Definition complete : value :=
  object [("account_uri", VStr "http://usd-ledger.example/accounts/mark");
          ("username", VStr "mark"); ("password", VStr "mark")].

Definition renamed : value :=
  object [("account", VStr "http://usd-ledger.example/accounts/mark");
          ("username", VStr "mark"); ("password", VStr "mark")].

Definition with_ca : value :=
  object [("account_uri", VStr "http://usd-ledger.example/accounts/mark");
          ("username", VStr "mark"); ("password", VStr "mark");
          ("ca", VStr "/etc/connector/ca.pem")].

Definition no_username : value :=
  object [("account_uri", VStr "http://usd-ledger.example/accounts/mark");
          ("password", VStr "mark")].

Definition empty_uri : value :=
  object [("account_uri", VStr ""); ("username", VStr "mark");
          ("password", VStr "mark")].

Definition unknown_type : value :=
  object [("account_uri", VStr "http://usd-ledger.example/accounts/mark");
          ("username", VStr "mark"); ("password", VStr "mark");
          ("type", VStr "nosuch")].

Definition usd : string := "http://usd-ledger.example".
Definition eur : string := "http://eur-ledger.example".

Definition documents : list value :=
  [ VBool false; object []; mk_array [];
    object [(usd, complete)];
    object [(usd, renamed)];
    object [(usd, with_ca)];
    object [(usd, no_username)];
    mk_array [VStr ("USD@" ++ usd); VStr ("EUR@" ++ eur)];
    object [(usd, VStr "cc:0:3:47DEQpj8HBSa-_TImW-5JCeuQeRkm5NMpJWZG3hSuFU:0")] ].

(** Modelled from the spec: [Utils.getPairs] of lib/utils.js, which is
    not among the sources.  The pairs are the combinations over the
    configured ledgers, each pair of two distinct ledgers once and no
    ledger with itself. *)
Fixpoint pairs_of (l : list LedgerDesc) : list (list LedgerDesc) :=
  match l with
  | [] => []
  | cur :: rest => map (fun val => [cur; val]) rest ++ pairs_of rest
  end.

Definition libs : Libs :=
  {| JSON_parse := fun text => lookup text (map (fun v => (stringify v, v)) documents);
     ToNumber := fun s =>
       if s =? "" then 0%float
       else if s =? "0" then 0%float
       else if s =? "5" then 5%float
       else if s =? "0.5" then 0.5%float
       else nan;
     ToString := fun v =>
       match v with
       | VUndefined => "undefined"
       | VNull => "null"
       | VBool true => "true"
       | VBool false => "false"
       | VStr s => s
       | VNum _ => "NaN"
       | VBuffer c => c
       | VObject _ _ | VFrozen _ _ => "[object Object]"
       | VBuiltin _ => "function () { [native code] }"
       end;
     castBool := fun o d =>
       match o with
       | None => Ok d
       | Some s =>
           if (s =? "true") || (s =? "1") then Ok true
           else if (s =? "false") || (s =? "0") then Ok false
           else Throw (Error ("castBool unexpected value: " ++ s))
       end;
     validateCondition := fun v =>
       match v with
       | VStr s => if prefix "cc:" s then None else Some "Invalid condition format"
       | _ => Some "Invalid condition format"
       end;
     getPairs := pairs_of;
     plugin_installed := fun name =>
       (name =? "ilp-plugin-bells") || (name =? "ilp-plugin-virtual") |}.

Definition no_file (p : string) : string + string :=
  inr ("ENOENT: no such file or directory, access '" ++ p ++ "'").

(** A process with the given environment, started as [node app.js], with
    no file on disk and empty fixtures. *)
Definition world (vars : list (string * string)) : World :=
  {| env := fun k => lookup k vars;
     argv := ["/usr/bin/node"; "/srv/connector/src/app.js"];
     files := no_file;
     test_ledgerCredentials := object [];
     test_tradingPairs := mk_array [] |}.

(** The configuration assembled from an empty environment *)
Definition blank : Config.LocalConfig :=
  {| Config.backend := "fixerio";
     Config.ledgerCredentials := object [];
     Config.fxSpread := Config.DEFAULT_FX_SPREAD;
     Config.slippage := Config.DEFAULT_SLIPPAGE;
     Config.expiry :=
       {| Config.minMessageWindow := Config.DEFAULT_MIN_MESSAGE_WINDOW;
          Config.maxHoldTime := Config.DEFAULT_MAX_HOLD_TIME |};
     Config.features :=
       {| Config.debugAutoFund := false; Config.debugReplyNotifications := false |};
     Config.admin := VUndefined;
     Config.tradingPairs := mk_array [];
     Config.server := object [];
     Config.backendUri := VUndefined;
     Config.notifications := {| Config.must_verify := false; Config.keys := object [] |};
     Config.routeBroadcastInterval := Config.DEFAULT_ROUTE_BROADCAST_INTERVAL;
     Config.routeCleanupInterval := Config.DEFAULT_ROUTE_CLEANUP_INTERVAL;
     Config.routeExpiry := Config.DEFAULT_ROUTE_EXPIRY |}.

(** The configuration a process of the examples assembles ([blank] if it
    throws) *)
Definition assembled (w : World) : Config.LocalConfig :=
  match Config.getLocalConfig libs w with
  | Ok cfg => cfg
  | Throw _ => blank
  end.

Definition two_ledgers : (string * string) :=
  ("CONNECTOR_LEDGERS",
   stringify (mk_array [VStr ("USD@" ++ usd); VStr ("EUR@" ++ eur)])).

End Sample.

(** ** The vocabulary of the statements *)

Section Vocabulary.

Variable L : Libs.

(** The value read at [c.k], undefined also where reading throws *)
Definition field (c : value) (k : string) : value := getIn c k.

Definition missing (c : value) (k : string) : bool := is_undefined (field c k).

Definition nullish (v : value) : bool :=
  match v with
  | VUndefined | VNull => true
  | _ => false
  end.





(** The pairs resolved by the [let tradingPairs] statement *)
Definition resolved_pairs (pairs : value) (ledgers : list LedgerDesc) : value :=
  or_v pairs (Config.generateDefaultPairs L ledgers).

(** The variables the assembly reads besides the numeric knobs. *)
Definition core_variables : list string :=
  [ "CONNECTOR_NOTIFICATION_VERIFY"; "CONNECTOR_NOTIFICATION_KEYS"; "NODE_ENV";
    "CONNECTOR_LEDGERS"; "CONNECTOR_CREDENTIALS"; "CONNECTOR_ADMIN_USER";
    "CONNECTOR_ADMIN_PASS"; "CONNECTOR_ADMIN_KEY"; "CONNECTOR_ADMIN_CERT";
    "CONNECTOR_ADMIN_CA"; "CONNECTOR_PAIRS"; "CONNECTOR_DEBUG_AUTOFUND";
    "CONNECTOR_DEBUG_REPLY_NOTIFICATIONS"; "CONNECTOR_BACKEND";
    "CONNECTOR_BACKEND_URI"; "UNIT_TEST_OVERRIDE" ].


(** Two processes with the same command line, files and fixtures whose
    environments agree on the variables [vars]. *)
Definition agree (vars : list string) (w w' : World) : Prop :=
  (forall k, In k vars -> env w k = env w' k) /\
  argv w = argv w' /\
  (forall p, files w p = files w' p) /\
  test_ledgerCredentials w = test_ledgerCredentials w' /\
  test_tradingPairs w = test_tradingPairs w'.

(** The override is absent or does not convert to a number. *)
Definition absent_or_unparsable (o : option string) : Prop :=
  o = None \/ exists s, o = Some s /\ is_nan (ToNumber L s) = true.

(** The override is absent or the empty string. *)
Definition absent_or_empty (o : option string) : Prop :=
  o = None \/ o = Some "".


(** The value is an object that is no array, frozen or not. *)
Definition is_plain_object (v : value) : bool :=
  match v with
  | VObject Plain _ | VFrozen Plain _ => true
  | _ => false
  end.

(** The signing key configured for a ledger, undefined when there is none *)
Definition key_of (ks : value) (d : LedgerDesc) : value := getIn ks (ledger d).

Definition key_missing (ks : value) (d : LedgerDesc) : Prop :=
  is_undefined (key_of ks d) = true.

(** The key is there and is refused as a condition, with message [m]. *)
Definition key_invalid (ks : value) (d : LedgerDesc) (m : string) : Prop :=
  is_undefined (key_of ks d) = false /\ validateCondition L (key_of ks d) = Some m.

Definition key_ok (ks : value) (d : LedgerDesc) : Prop :=
  is_undefined (key_of ks d) = false /\ validateCondition L (key_of ks d) = None.

(** The error reported for a ledger whose key is missing or invalid *)
Definition key_error (ks : value) (d : LedgerDesc) (e : JsError) : Prop :=
  (key_missing ks d /\
   e = Error ("Missing notification signing keys for ledger: " ++ ledger d))
  \/
  (exists m, key_invalid ks d m /\
             e = Error ("Failed to read signing key for ledger " ++ ledger d ++ ": " ++ m)).

(** The turn of the build loop for a ledger id returns a handle. *)
Definition succeeds (cfg : Config.LocalConfig) (ledgerId : string) : Prop :=
  exists handle lines, Multiledger.buildLedger L cfg ledgerId = (Ok handle, lines).

(** The properties of a credential object after the deprecated-key block,
    and the lines the block logs. *)
Definition migrated (cps : props) : props * list Multiledger.LogEntry :=
  match lookup "account_uri" cps with
  | Some uri =>
      if truthy uri
      then (remove "account_uri" (update "account" uri cps), [Multiledger.deprecation])
      else (cps, [])
  | None => (cps, [])
  end.

(** The type a credential object is built with: its own, or 'bells' *)
Definition type_of (cps : props) : value :=
  or_v (match lookup "type" cps with Some v => v | None => VUndefined end)
       (VStr "bells").

(** The elements of an array, frozen or not, under their indices *)
Definition is_array (v : value) : option props :=
  match v with
  | VObject Array ps | VFrozen Array ps => Some ps
  | _ => None
  end.

(** The string holds the character '@'. *)
Fixpoint has_at (s : string) : bool :=
  match s with
  | EmptyString => false
  | String c r => (c =? "@")%char || has_at r
  end.

(** The path names a file that can be opened. *)
Definition readable (w : World) (p : string) : Prop :=
  exists content, files w p = inl content.

(** A variable that is set and not empty names a readable file. *)
Definition names_readable (w : World) (o : option string) : Prop :=
  forall p, o = Some p -> p <> "" -> readable w p.

(** An admin credential is in use: ADMIN_PASS or ADMIN_KEY is set and not
    empty. *)
Definition uses_admin (w : World) : bool :=
  truthy (of_env (Config.getEnv w Config.envPrefix "ADMIN_PASS"))
  || truthy (of_env (Config.getEnv w Config.envPrefix "ADMIN_KEY")).


(** The command line is that of a mocha run: the program is mocha, or
    it is node and its first argument is mocha. *)
Definition mocha_run (a0 : string) (rest : list string) : Prop :=
  (exists p, a0 = p ++ "mocha") \/
  (exists p q rest', a0 = p ++ "node" /\ rest = (q ++ "mocha") :: rest').

(** The variable is set, not empty, and is not JSON. *)
Definition malformed (o : option string) : Prop :=
  exists text, o = Some text /\ text <> "" /\ JSON_parse L text = None.

(** The ledger ids of a configuration, in the order [Object.keys] gives *)
Definition ledger_ids (cfg : Config.LocalConfig) : list string :=
  map fst (entries (Config.ledgerCredentials cfg)).

(** The credential under a ledger id has a truthy [account_uri]. *)
Definition has_legacy_account (cfg : Config.LocalConfig) (ledgerId : string) : bool :=
  truthy (getIn (getIn (Config.ledgerCredentials cfg) ledgerId) "account_uri").

End Vocabulary.

(** ** The processes and configurations of the examples *)

Definition credentials_of (c : value) : list (string * string) :=
  [("CONNECTOR_CREDENTIALS", Sample.stringify (Sample.object [(Sample.usd, c)]))].




(** An environment that breaks all three checks: verification is on and
    no key is configured, the credential has no username, and ADMIN_CERT
    is set without ADMIN_KEY. *)
Definition all_invalid : World :=
  Sample.world
    [ ("CONNECTOR_NOTIFICATION_VERIFY", "true");
      Sample.two_ledgers;
      ("CONNECTOR_CREDENTIALS",
       Sample.stringify (Sample.object [(Sample.usd, Sample.no_username)]));
      ("CONNECTOR_ADMIN_CERT", "/etc/connector/admin.pem") ].

(** Verification is on, the USD ledger has a key and the EUR ledger none. *)
Definition one_key : World :=
  Sample.world
    [ ("CONNECTOR_NOTIFICATION_VERIFY", "true");
      Sample.two_ledgers;
      ("CONNECTOR_NOTIFICATION_KEYS",
       Sample.stringify
         (Sample.object
            [(Sample.usd, VStr "cc:0:3:47DEQpj8HBSa-_TImW-5JCeuQeRkm5NMpJWZG3hSuFU:0")])) ].

(** The configuration of an empty environment with the given ledger
    credentials *)
Definition configured (creds : value) : Config.LocalConfig :=
  {| Config.backend := Config.backend Sample.blank;
     Config.ledgerCredentials := creds;
     Config.fxSpread := Config.fxSpread Sample.blank;
     Config.slippage := Config.slippage Sample.blank;
     Config.expiry := Config.expiry Sample.blank;
     Config.features := Config.features Sample.blank;
     Config.admin := Config.admin Sample.blank;
     Config.tradingPairs := Config.tradingPairs Sample.blank;
     Config.server := Config.server Sample.blank;
     Config.backendUri := Config.backendUri Sample.blank;
     Config.notifications := Config.notifications Sample.blank;
     Config.routeBroadcastInterval := Config.routeBroadcastInterval Sample.blank;
     Config.routeCleanupInterval := Config.routeCleanupInterval Sample.blank;
     Config.routeExpiry := Config.routeExpiry Sample.blank |}.

(** The ledgers a registry build returns (none if it throws) *)
Definition built (cfg : Config.LocalConfig) : list (string * Multiledger.LedgerPlugin) :=
  match fst (Multiledger.buildLedgers Sample.libs cfg) with
  | Ok ls => ls
  | Throw _ => []
  end.

(** The registry [new Multiledger] makes of a configuration (an empty one
    if the constructor throws) *)
Definition registry_of (cfg : Config.LocalConfig) : Multiledger.t :=
  match fst (Multiledger.new Sample.libs cfg) with
  | Ok this => this
  | Throw _ =>
      {| Multiledger.config := cfg;
         Multiledger.ledgers := [];
         Multiledger.ledgersHealth := statusNotOk |}
  end.

(** A disk with a key and a certificate *)
Definition key_disk (p : string) : string + string :=
  if p =? "/etc/connector/key.pem" then inl "KEY"
  else if p =? "/etc/connector/cert.pem" then inl "CERT"
  else Sample.no_file p.

(** A process of the examples that runs on [key_disk] *)
Definition on_key_disk (vars : list (string * string)) : World :=
  {| env := env (Sample.world vars);
     argv := argv (Sample.world vars);
     files := key_disk;
     test_ledgerCredentials := test_ledgerCredentials (Sample.world vars);
     test_tradingPairs := test_tradingPairs (Sample.world vars) |}.

(** A client-certificate credential *)
Definition key_credential : props :=
  [("account_uri", VStr "http://usd-ledger.example/accounts/mark");
   ("username", VStr "mark");
   ("key", VStr "/etc/connector/key.pem");
   ("cert", VStr "/etc/connector/cert.pem")].

(** The credential [parseCredentials] makes of [key_credential] *)
Definition key_credential_read : props :=
  [("account_uri", VStr "http://usd-ledger.example/accounts/mark");
   ("username", VStr "mark");
   ("key", VBuffer "KEY");
   ("cert", VBuffer "CERT")].

(** The libraries of the examples, reading the given JSON documents *)
Definition libs_reading (docs : list value) : Libs :=
  {| JSON_parse := fun text => lookup text (map (fun v => (Sample.stringify v, v)) docs);
     ToNumber := ToNumber Sample.libs;
     ToString := ToString Sample.libs;
     castBool := castBool Sample.libs;
     validateCondition := validateCondition Sample.libs;
     getPairs := getPairs Sample.libs;
     plugin_installed := plugin_installed Sample.libs |}.

(** Verification is on, the key of the USD ledger is no condition and
    the EUR ledger has no key. *)
Definition refused_key : value :=
  Sample.object [(Sample.usd, VStr "not-a-condition")].

Definition refused_then_missing : World :=
  Sample.world
    [ ("CONNECTOR_NOTIFICATION_VERIFY", "true");
      Sample.two_ledgers;
      ("CONNECTOR_NOTIFICATION_KEYS", Sample.stringify refused_key) ].

Definition libs_refused_key : Libs :=
  libs_reading
    [ VBool false; Sample.object []; mk_array [];
      mk_array [VStr ("USD@" ++ Sample.usd); VStr ("EUR@" ++ Sample.eur)];
      refused_key ].

(** A CREDENTIALS map with a [length] of its own: lodash takes it for
    array-like. *)
Definition array_like (n : float) : value :=
  Sample.object [("length", VNum n); (Sample.usd, Sample.no_username)].

(** Three credentials: a complete one, one without username, and one
    without [account_uri] *)
Definition three_credentials : value :=
  Sample.object [(Sample.usd, Sample.complete);
                 (Sample.eur, Sample.no_username);
                 ("http://gbp-ledger.example", Sample.renamed)].

(** ** The model on the examples *)

Example assembly_of_an_empty_environment :
  Config.getLocalConfig Sample.libs (Sample.world []) = Ok Sample.blank.
Proof. reflexivity. Qed.

Example parseLedgers_two_ledgers :
  Config.parseLedgers Sample.libs (Sample.world [Sample.two_ledgers]) =
  Ok [ {| currency := "USD"; ledger := "http://usd-ledger.example" |};
       {| currency := "EUR"; ledger := "http://eur-ledger.example" |} ].
Proof. reflexivity. Qed.

Example parseLedger_without_separator :
  Config.parseLedger (VStr "USD") = Ok {| currency := ""; ledger := "USD" |}.
Proof. reflexivity. Qed.

Example test_mode_forces_reply_notifications :
  Config.features (Sample.assembled (Sample.world [("NODE_ENV", "unit")])) =
  {| Config.debugAutoFund := false; Config.debugReplyNotifications := true |}.
Proof. reflexivity. Qed.

Example autofund_requires_admin :
  Config.getLocalConfig Sample.libs (Sample.world [("CONNECTOR_DEBUG_AUTOFUND", "true")]) =
  Throw (Error "CONNECTOR_DEBUG_AUTOFUND requires either CONNECTOR_ADMIN_PASS or CONNECTOR_ADMIN_KEY").
Proof. reflexivity. Qed.

Example registry_of_a_complete_credential :
  map fst (built (configured (Sample.object [(Sample.usd, Sample.complete)]))) =
  [Sample.usd].
Proof. reflexivity. Qed.

(** ** Credential validation (C1) *)

(** The names this code reads with a fixed key are no members of
    Object.prototype: where they are no own property they read as
    undefined. *)
Ltac plain_names :=
  repeat match goal with
         | |- context [inherited ?k] =>
             progress change (inherited k) with VUndefined
         | H : context [inherited ?k] |- _ =>
             progress change (inherited k) with VUndefined in H
         end.

Section Credentials.

Variable L : Libs.




Lemma get_prop_field (c : value) (k : string) :
  nullish c = false -> get_prop c k = Ok (field c k).
Proof.
  unfold field, getIn. destruct c; simpl; try discriminate; reflexivity.
Qed.








End Credentials.



(** A CREDENTIALS map with a [length] of zero is visited as an empty
    array: its incomplete credential is not looked at.  With a [length]
    of one, index 0 is visited, where the map has nothing. *)
Example array_like_map_is_not_visited :
  each_entries (array_like 0) = [] /\
  Config.forEach (Config.validateCredential (Sample.world []))
    (each_entries (array_like 0)) = Ok tt.
Proof. split; reflexivity. Qed.

Example array_like_map_is_visited_by_index :
  each_entries (array_like 1) = [("0", VUndefined)] /\
  Config.forEach (Config.validateCredential (Sample.world []))
    (each_entries (array_like 1)) = Throw TypeError.
Proof. split; reflexivity. Qed.

Example is_length_examples :
  is_length 3 = Some 3 /\ is_length 0.5 = None /\ is_length (-1) = None /\
  is_length nan = None /\ is_length infinity = None /\
  is_length 9007199254740992 = None.
Proof. repeat split. Qed.

(** ** Assembly: trading pairs and numeric knobs (C2, C3) *)

Section Assembly.

Variable L : Libs.

(** What a successful assembly went through, and the fields it computed
    from it. *)
Lemma getLocalConfig_inv (w : World) (cfg : Config.LocalConfig) :
  Config.getLocalConfig L w = Ok cfg ->
  exists ledgers pairs test,
    Config.parseLedgers L w = Ok ledgers /\
    Config.parse L (or_default (Config.getEnv w Config.envPrefix "PAIRS") "false")
      = Ok pairs /\
    Config.useTestConfig L w = Ok test /\
    (if test then
       exists empty,
         empty_length (resolved_pairs L pairs ledgers) = Ok empty /\
         Config.tradingPairs cfg =
           if empty then test_tradingPairs w else resolved_pairs L pairs ledgers
     else Config.tradingPairs cfg = resolved_pairs L pairs ledgers) /\
    Config.minMessageWindow (Config.expiry cfg) =
      Config.num_or (Config.to_number L (Config.getEnv w Config.envPrefix "MIN_MESSAGE_WINDOW"))
                    Config.DEFAULT_MIN_MESSAGE_WINDOW /\
    Config.maxHoldTime (Config.expiry cfg) =
      Config.num_or (Config.to_number L (Config.getEnv w Config.envPrefix "MAX_HOLD_TIME"))
                    Config.DEFAULT_MAX_HOLD_TIME /\
    Config.fxSpread cfg =
      (if truthy (of_env (Config.getEnv w Config.envPrefix "FX_SPREAD"))
       then Config.to_number L (Config.getEnv w Config.envPrefix "FX_SPREAD")
       else Config.DEFAULT_FX_SPREAD) /\
    Config.slippage cfg =
      (if truthy (of_env (Config.getEnv w Config.envPrefix "SLIPPAGE"))
       then Config.to_number L (Config.getEnv w Config.envPrefix "SLIPPAGE")
       else Config.DEFAULT_SLIPPAGE) /\
    Config.routeBroadcastInterval cfg =
      Config.num_or (Config.to_number L (Config.getEnv w Config.envPrefix "ROUTE_BROADCAST_INTERVAL"))
                    Config.DEFAULT_ROUTE_BROADCAST_INTERVAL /\
    Config.routeCleanupInterval cfg =
      Config.num_or (Config.to_number L (Config.getEnv w Config.envPrefix "ROUTE_CLEANUP_INTERVAL"))
                    Config.DEFAULT_ROUTE_CLEANUP_INTERVAL /\
    Config.routeExpiry cfg =
      Config.num_or (Config.to_number L (Config.getEnv w Config.envPrefix "ROUTE_EXPIRY"))
                    Config.DEFAULT_ROUTE_EXPIRY.
Proof.
  unfold Config.getLocalConfig, resolved_pairs.
  destruct (Config.validateLocalEnvConfig L w) as [[]|]; simpl; [| discriminate].
  destruct (Config.parseLedgers L w) as [ledgers|]; simpl; [| discriminate].
  destruct (Config.parse L _) as [pairs|]; simpl; [| discriminate].
  destruct (castBool L _ false) as [autoFund|]; simpl; [| discriminate].
  destruct (castBool L _ false) as [replyNotifications|]; simpl; [| discriminate].
  destruct (_ && _); [discriminate |].
  match goal with |- bind ?a _ = _ -> _ => destruct a as [admin0|] end;
    simpl; [| discriminate].
  destruct (Config.useTestConfig L w) as [test|]; simpl; [| discriminate].
  intros H. exists ledgers, pairs, test. repeat (split; [reflexivity |]).
  destruct test.
  - destruct (empty_length _) as [empty|]; simpl in H; [| discriminate].
    destruct (Config.parseNotificationSignEnv L w); simpl in H; [| discriminate].
    injection H as <-. simpl. repeat split; try reflexivity. now exists empty.
  - destruct (Config.parseCredentials L w); simpl in H; [| discriminate].
    destruct (Config.parseNotificationSignEnv L w); simpl in H; [| discriminate].
    injection H as <-. simpl. repeat split; reflexivity.
Qed.

End Assembly.

(** ** The inputs of assembly (C3, C9) *)

Ltac in_list := solve [simpl; repeat (first [left; reflexivity | right])].

Section Agreement.

Variable L : Libs.
Variables w w' : World.

Hypothesis Hcore : agree core_variables w w'.

Lemma core_env (k : string) : In k core_variables -> env w k = env w' k.
Proof. apply Hcore. Qed.

Lemma core_files (p : string) : files w p = files w' p.
Proof. apply Hcore. Qed.

Lemma accessSync_agree (v : value) : Config.accessSync w v = Config.accessSync w' v.
Proof. destruct v; simpl; try reflexivity. now rewrite core_files. Qed.

Lemma readFileSync_agree (v : value) : Config.readFileSync w v = Config.readFileSync w' v.
Proof. destruct v; simpl; try reflexivity. now rewrite core_files. Qed.

Lemma access_all_agree (c k a : value) :
  Config.access_all w c k a = Config.access_all w' c k a.
Proof.
  unfold Config.access_all, Config.guarded_access. now rewrite !accessSync_agree.
Qed.

Lemma read_if_set_agree (o : option string) :
  Config.read_if_set w o = Config.read_if_set w' o.
Proof. unfold Config.read_if_set. now rewrite readFileSync_agree. Qed.

Lemma parseLedgers_agree : Config.parseLedgers L w = Config.parseLedgers L w'.
Proof.
  unfold Config.parseLedgers, Config.getEnv. simpl.
  now rewrite (core_env "CONNECTOR_LEDGERS") by in_list.
Qed.

Lemma parseCredentialsEnv_agree :
  Config.parseCredentialsEnv L w = Config.parseCredentialsEnv L w'.
Proof.
  unfold Config.parseCredentialsEnv, Config.getEnv. simpl.
  now rewrite (core_env "CONNECTOR_CREDENTIALS") by in_list.
Qed.

Lemma parseNotificationSignEnv_agree :
  Config.parseNotificationSignEnv L w = Config.parseNotificationSignEnv L w'.
Proof.
  unfold Config.parseNotificationSignEnv, Config.getEnv, Config.env_is. simpl.
  rewrite (core_env "CONNECTOR_NOTIFICATION_VERIFY") by in_list.
  rewrite (core_env "CONNECTOR_NOTIFICATION_KEYS") by in_list.
  now rewrite (core_env "NODE_ENV") by in_list.
Qed.

Lemma parseAdminEnv_agree : Config.parseAdminEnv w = Config.parseAdminEnv w'.
Proof.
  unfold Config.parseAdminEnv, Config.getEnv. simpl.
  rewrite (core_env "CONNECTOR_ADMIN_USER") by in_list.
  rewrite (core_env "CONNECTOR_ADMIN_PASS") by in_list.
  rewrite (core_env "CONNECTOR_ADMIN_KEY") by in_list.
  rewrite (core_env "CONNECTOR_ADMIN_CERT") by in_list.
  now rewrite (core_env "CONNECTOR_ADMIN_CA") by in_list.
Qed.

Lemma validateCredential_agree (c : value) (ledger : string) :
  Config.validateCredential w c ledger = Config.validateCredential w' c ledger.
Proof.
  unfold Config.validateCredential.
  destruct (get_prop c "key") as [k|]; simpl; [| reflexivity].
  destruct (get_prop c "password"); simpl; [| reflexivity].
  destruct (get_prop c "username"); simpl; [| reflexivity].
  destruct (get_prop c "cert") as [ct|]; simpl; [| reflexivity].
  destruct (get_prop c "account_uri"); simpl; [| reflexivity].
  destruct (get_prop c "ca"); simpl; [| reflexivity].
  now rewrite access_all_agree.
Qed.

Lemma forEach_ext (f g : value -> string -> Result unit) (ps : props) :
  (forall v k, f v k = g v k) -> Config.forEach f ps = Config.forEach g ps.
Proof.
  intros E. induction ps as [|[k v] r IH]; simpl; [reflexivity |].
  now rewrite E, IH.
Qed.

Lemma mapValues_ext (f g : value -> Result value) (ps : props) :
  (forall v, f v = g v) -> Config.mapValues f ps = Config.mapValues g ps.
Proof.
  intros E. induction ps as [|[k v] r IH]; simpl; [reflexivity |].
  now rewrite E, IH.
Qed.

Lemma parseCredential_agree (c : value) :
  Config.parseCredential w c = Config.parseCredential w' c.
Proof.
  unfold Config.parseCredential.
  destruct (get_prop c "key") as [k|]; simpl; [| reflexivity].
  destruct (get_prop c "ca") as [a|] eqn:Ha.
  - destruct (negb (is_undefined k)).
    + rewrite (readFileSync_agree k).
      destruct (Config.readFileSync w' k); simpl; [| reflexivity].
      destruct (get_prop c "cert") as [ct|]; simpl; [| reflexivity].
      rewrite (readFileSync_agree ct).
      destruct (Config.readFileSync w' ct); simpl; [| reflexivity].
      now rewrite (readFileSync_agree a).
    + simpl. now rewrite (readFileSync_agree a).
  - destruct (negb (is_undefined k)); simpl; [| reflexivity].
    rewrite (readFileSync_agree k).
    destruct (Config.readFileSync w' k); simpl; [| reflexivity].
    destruct (get_prop c "cert") as [ct|]; simpl; [| reflexivity].
    now rewrite (readFileSync_agree ct).
Qed.

Lemma parseCredentials_agree :
  Config.parseCredentials L w = Config.parseCredentials L w'.
Proof.
  unfold Config.parseCredentials. rewrite parseCredentialsEnv_agree.
  destruct (Config.parseCredentialsEnv L w'); simpl; [| reflexivity].
  now rewrite (mapValues_ext _ _ _ parseCredential_agree).
Qed.

Lemma validateLocalEnvConfig_agree :
  Config.validateLocalEnvConfig L w = Config.validateLocalEnvConfig L w'.
Proof.
  unfold Config.validateLocalEnvConfig, Config.validateNotificationEnv,
    Config.validateCredentialsEnv, Config.validateAdminEnv.
  rewrite parseNotificationSignEnv_agree, parseLedgers_agree,
    parseCredentialsEnv_agree, parseAdminEnv_agree.
  destruct (Config.parseCredentialsEnv L w') as [creds|].
  - simpl (bind (Ok creds) _).
    rewrite (forEach_ext _ _ (each_entries creds) validateCredential_agree).
    now rewrite access_all_agree.
  - now rewrite access_all_agree.
Qed.

Lemma useTestConfig_agree : Config.useTestConfig L w = Config.useTestConfig L w'.
Proof.
  unfold Config.useTestConfig, Config.isRunningTests, Config.env_is.
  rewrite (core_env "UNIT_TEST_OVERRIDE") by in_list.
  rewrite (core_env "NODE_ENV") by in_list.
  now rewrite (proj1 (proj2 Hcore)).
Qed.

End Agreement.


Section Frame.

Variable L : Libs.
Variables w w' : World.


(** The numeric knobs never decide whether assembly succeeds. *)
Lemma getLocalConfig_knobs_frame (cfg : Config.LocalConfig) :
  agree core_variables w w' ->
  Config.getLocalConfig L w = Ok cfg ->
  exists cfg', Config.getLocalConfig L w' = Ok cfg'.
Proof.
  intros Hcore.
  assert (Henv : forall k, In k core_variables -> env w k = env w' k) by apply Hcore.
  unfold Config.getLocalConfig.
  rewrite (validateLocalEnvConfig_agree L w w' Hcore), (parseLedgers_agree L w w' Hcore),
    (parseAdminEnv_agree w w' Hcore), (useTestConfig_agree L w w' Hcore),
    (parseCredentials_agree L w w' Hcore), (parseNotificationSignEnv_agree L w w' Hcore).
  rewrite !(read_if_set_agree w w' Hcore).
  rewrite (proj1 (proj2 (proj2 (proj2 Hcore)))), (proj2 (proj2 (proj2 (proj2 Hcore)))).
  unfold Config.getEnv. simpl.
  rewrite (Henv "CONNECTOR_PAIRS") by in_list.
  rewrite (Henv "CONNECTOR_DEBUG_AUTOFUND") by in_list.
  rewrite (Henv "CONNECTOR_DEBUG_REPLY_NOTIFICATIONS") by in_list.
  destruct (Config.validateLocalEnvConfig L w') as [[]|]; simpl; [| discriminate].
  destruct (Config.parseLedgers L w') as [ledgers|]; simpl; [| discriminate].
  destruct (Config.parse L _) as [pairs|]; simpl; [| discriminate].
  destruct (castBool L _ false) as [autoFund|]; simpl; [| discriminate].
  destruct (castBool L _ false) as [replyNotifications|]; simpl; [| discriminate].
  destruct (_ && _); [discriminate |].
  match goal with |- bind ?a _ = _ -> _ => destruct a as [admin0|] end;
    simpl; [| discriminate].
  destruct (Config.useTestConfig L w') as [[]|]; simpl; [| | discriminate].
  - destruct (empty_length _); simpl; [| discriminate].
    destruct (Config.parseNotificationSignEnv L w'); simpl; [| discriminate].
    intros _. eexists. reflexivity.
  - destruct (Config.parseCredentials L w'); simpl; [| discriminate].
    destruct (Config.parseNotificationSignEnv L w'); simpl; [| discriminate].
    intros _. eexists. reflexivity.
Qed.

End Frame.

(** ** Trading pairs (C2) *)

Section TradingPairs.

Variable L : Libs.

(** C2, amended.  When PAIRS is absent the assembled trading pairs are the
    default pairs generated over the configured ledgers.  When PAIRS is an
    explicit empty list, that list is truthy and is kept: no defaults are
    generated and the assembled pairs are the empty list.  (In test mode
    an empty result is replaced by the fixture pairs in both cases.) *)
Theorem tradingPairs_resolution (w : World) (cfg : Config.LocalConfig)
    (ledgers : list LedgerDesc) (test : bool) :
  Config.getLocalConfig L w = Ok cfg ->
  Config.parseLedgers L w = Ok ledgers ->
  Config.useTestConfig L w = Ok test ->
  (Config.getEnv w Config.envPrefix "PAIRS" = None ->
   JSON_parse L "false" = Some (VBool false) ->
   Config.tradingPairs cfg =
     match test, getPairs L ledgers with
     | true, [] => test_tradingPairs w
     | _, _ => Config.generateDefaultPairs L ledgers
     end)
  /\
  (forall text,
     Config.getEnv w Config.envPrefix "PAIRS" = Some text ->
     text <> "" ->
     JSON_parse L text = Some (VObject Array []) ->
     Config.tradingPairs cfg = if test then test_tradingPairs w else VObject Array []).
Proof.
  intros Hcfg Hl Ht.
  destruct (getLocalConfig_inv L w cfg Hcfg)
    as (ledgers' & pairs & test' & Hl' & Hp & Ht' & Htp & _).
  rewrite Hl in Hl'. injection Hl' as <-.
  rewrite Ht in Ht'. injection Ht' as <-.
  unfold resolved_pairs in Htp. split.
  - intros Habs Hfalse. rewrite Habs in Hp. unfold Config.parse in Hp. simpl in Hp.
    rewrite Hfalse in Hp. injection Hp as <-. simpl in Htp.
    unfold Config.generateDefaultPairs, mk_array in *.
    destruct test.
    + destruct Htp as (empty & He & ->). simpl in He.
      destruct (getPairs L ledgers); simpl in He; injection He as <-; reflexivity.
    + destruct (getPairs L ledgers); exact Htp.
  - intros text Hset Hne Harr. rewrite Hset in Hp. unfold Config.parse in Hp. simpl in Hp.
    destruct (String.eqb_spec text ""); [contradiction |].
    rewrite Harr in Hp. injection Hp as <-. simpl in Htp.
    destruct test.
    + destruct Htp as (empty & He & ->). simpl in He. now injection He as <-.
    + exact Htp.
Qed.

End TradingPairs.

Lemma tradingPairs_resolution_witness :
  Config.tradingPairs (Sample.assembled (Sample.world [Sample.two_ledgers])) =
  Config.generateDefaultPairs Sample.libs
    [ {| currency := "USD"; ledger := Sample.usd |};
      {| currency := "EUR"; ledger := Sample.eur |} ].
Proof.
  refine (proj1 (tradingPairs_resolution Sample.libs
                   (Sample.world [Sample.two_ledgers])
                   (Sample.assembled (Sample.world [Sample.two_ledgers]))
                   [ {| currency := "USD"; ledger := Sample.usd |};
                     {| currency := "EUR"; ledger := Sample.eur |} ]
                   false _ _ _) _ _); reflexivity.
Defined.

(** C2 as stated fails on an explicit empty list: with two ledgers
    configured and PAIRS set to the empty array, the assembled pairs are
    the empty array and not the one generated default pair. *)
Lemma tradingPairs_counterexample :
  exists cfg,
    Config.getLocalConfig Sample.libs
      (Sample.world [Sample.two_ledgers; ("CONNECTOR_PAIRS", "[]")]) = Ok cfg /\
    Config.parseLedgers Sample.libs
      (Sample.world [Sample.two_ledgers; ("CONNECTOR_PAIRS", "[]")]) =
      Ok [ {| currency := "USD"; ledger := Sample.usd |};
           {| currency := "EUR"; ledger := Sample.eur |} ] /\
    Config.tradingPairs cfg = mk_array [] /\
    Config.generateDefaultPairs Sample.libs
      [ {| currency := "USD"; ledger := Sample.usd |};
        {| currency := "EUR"; ledger := Sample.eur |} ] =
      mk_array [ mk_array [ VStr "USD@http://usd-ledger.example";
                            VStr "EUR@http://eur-ledger.example" ] ].
Proof. eexists. repeat split; vm_compute; reflexivity. Qed.

(** ** Numeric knobs (C3) *)

Section Knobs.

Variable L : Libs.

Lemma num_or_default (o : option string) (d : float) :
  absent_or_unparsable L o -> Config.num_or (Config.to_number L o) d = d.
Proof.
  unfold Config.num_or. intros [-> | (s & -> & Hs)]; simpl; [reflexivity |].
  now rewrite Hs.
Qed.

(** C3, amended.  In a successful assembly, each of
    expiry.minMessageWindow, expiry.maxHoldTime, routeBroadcastInterval,
    routeCleanupInterval and routeExpiry equals its default (1, 10, 30000,
    1000, 45000) when its override is absent or does not parse as a
    number; fxSpread and slippage equal their defaults (0.002, 0.001) when
    their override is absent or empty, and are NaN when it is a non-empty
    string that does not parse.  No setting of the seven overrides makes
    the assembly throw: it succeeds for every environment that differs
    from a successful one in these variables only. *)
Theorem numeric_knobs (w : World) (cfg : Config.LocalConfig) :
  Config.getLocalConfig L w = Ok cfg ->
  (absent_or_unparsable L (Config.getEnv w Config.envPrefix "MIN_MESSAGE_WINDOW") ->
   Config.minMessageWindow (Config.expiry cfg) = 1%float) /\
  (absent_or_unparsable L (Config.getEnv w Config.envPrefix "MAX_HOLD_TIME") ->
   Config.maxHoldTime (Config.expiry cfg) = 10%float) /\
  (absent_or_unparsable L (Config.getEnv w Config.envPrefix "ROUTE_BROADCAST_INTERVAL") ->
   Config.routeBroadcastInterval cfg = 30000%float) /\
  (absent_or_unparsable L (Config.getEnv w Config.envPrefix "ROUTE_CLEANUP_INTERVAL") ->
   Config.routeCleanupInterval cfg = 1000%float) /\
  (absent_or_unparsable L (Config.getEnv w Config.envPrefix "ROUTE_EXPIRY") ->
   Config.routeExpiry cfg = 45000%float) /\
  (absent_or_empty (Config.getEnv w Config.envPrefix "FX_SPREAD") ->
   Config.fxSpread cfg = 0.002%float) /\
  (absent_or_empty (Config.getEnv w Config.envPrefix "SLIPPAGE") ->
   Config.slippage cfg = 0.001%float) /\
  (forall s, Config.getEnv w Config.envPrefix "FX_SPREAD" = Some s -> s <> "" ->
             is_nan (ToNumber L s) = true -> is_nan (Config.fxSpread cfg) = true) /\
  (forall s, Config.getEnv w Config.envPrefix "SLIPPAGE" = Some s -> s <> "" ->
             is_nan (ToNumber L s) = true -> is_nan (Config.slippage cfg) = true) /\
  (forall w', agree core_variables w w' ->
              exists cfg', Config.getLocalConfig L w' = Ok cfg').
Proof.
  intros Hcfg.
  destruct (getLocalConfig_inv L w cfg Hcfg)
    as (_ & _ & _ & _ & _ & _ & _ & Hmin & Hmax & Hfx & Hsl & Hrb & Hrc & Hre).
  repeat split.
  - intros H. rewrite Hmin. now apply num_or_default.
  - intros H. rewrite Hmax. now apply num_or_default.
  - intros H. rewrite Hrb. now apply num_or_default.
  - intros H. rewrite Hrc. now apply num_or_default.
  - intros H. rewrite Hre. now apply num_or_default.
  - intros [H | H]; rewrite Hfx, H; reflexivity.
  - intros [H | H]; rewrite Hsl, H; reflexivity.
  - intros s Hs Hne Hnan. rewrite Hfx, Hs. simpl.
    destruct (String.eqb_spec s ""); [contradiction | exact Hnan].
  - intros s Hs Hne Hnan. rewrite Hsl, Hs. simpl.
    destruct (String.eqb_spec s ""); [contradiction | exact Hnan].
  - intros w' Hag. exact (getLocalConfig_knobs_frame L w w' cfg Hag Hcfg).
Qed.

End Knobs.

Lemma numeric_knobs_witness :
  Config.maxHoldTime
    (Config.expiry (Sample.assembled (Sample.world [("CONNECTOR_MAX_HOLD_TIME", "soon")])))
  = 10%float.
Proof.
  refine (proj1 (proj2 (numeric_knobs Sample.libs
                          (Sample.world [("CONNECTOR_MAX_HOLD_TIME", "soon")])
                          (Sample.assembled (Sample.world [("CONNECTOR_MAX_HOLD_TIME", "soon")]))
                          _)) _).
  - reflexivity.
  - right. exists "soon". split; reflexivity.
Defined.

(** C3 as stated fails for fxSpread: a FX_SPREAD that does not parse as a
    number gives NaN, not the default 0.002, and likewise for SLIPPAGE. *)
Lemma numeric_knobs_counterexample :
  exists cfg,
    Config.getLocalConfig Sample.libs
      (Sample.world [("CONNECTOR_FX_SPREAD", "abc"); ("CONNECTOR_SLIPPAGE", "abc")])
      = Ok cfg /\
    is_nan (ToNumber Sample.libs "abc") = true /\
    is_nan (Config.fxSpread cfg) = true /\
    is_nan (Config.slippage cfg) = true /\
    is_nan 0.002%float = false /\
    is_nan 0.001%float = false.
Proof. eexists. repeat split; vm_compute; reflexivity. Qed.

(** ** Validation order (C6) *)

(** C6.  [validateLocalEnvConfig] checks notifications, then ledger
    credentials, then the admin credential: an error of the notification
    check is the error reported whatever the credentials are; when the
    notification check passes, an error of the credential check is the
    error reported whatever the admin credential is; and when both pass
    the outcome is that of the admin check. *)
Theorem validation_order (L : Libs) (w : World) :
  (forall e, Config.validateNotificationEnv L w = Throw e ->
             Config.validateLocalEnvConfig L w = Throw e) /\
  (forall e, Config.validateNotificationEnv L w = Ok tt ->
             Config.validateCredentialsEnv L w = Throw e ->
             Config.validateLocalEnvConfig L w = Throw e) /\
  (Config.validateNotificationEnv L w = Ok tt ->
   Config.validateCredentialsEnv L w = Ok tt ->
   Config.validateLocalEnvConfig L w = Config.validateAdminEnv w).
Proof.
  unfold Config.validateLocalEnvConfig. repeat split.
  - intros e ->. reflexivity.
  - intros e -> ->. reflexivity.
  - intros -> ->. reflexivity.
Qed.

Lemma validation_order_witness :
  Config.validateLocalEnvConfig Sample.libs all_invalid =
  Throw (Error "Missing notification signing keys for ledger: http://usd-ledger.example").
Proof.
  apply (proj1 (validation_order Sample.libs all_invalid)). reflexivity.
Defined.

Example all_invalid_credentials :
  Config.validateCredentialsEnv Sample.libs all_invalid =
  Throw (Error "Missing username for ledger: http://usd-ledger.example").
Proof. reflexivity. Qed.

Example all_invalid_admin :
  Config.validateAdminEnv all_invalid =
  Throw (Error "Missing ADMIN_CERT or ADMIN_KEY").
Proof. reflexivity. Qed.

(** ** Notification keys (C8) *)

Section NotificationKeys.

Variable L : Libs.

Lemma validateNotificationKey_cases (ks : value) (d : LedgerDesc) :
  nullish ks = false ->
  (key_ok L ks d /\ Config.validateNotificationKey L ks d = Ok tt) \/
  (exists e, key_error L ks d e /\ Config.validateNotificationKey L ks d = Throw e).
Proof.
  intros Hn. unfold Config.validateNotificationKey, key_error, key_ok, key_missing,
    key_invalid, key_of.
  rewrite (get_prop_field ks _ Hn). unfold field. simpl.
  destruct (is_undefined (getIn ks (ledger d))) eqn:Hu.
  - right. eexists. split; [left; split; reflexivity | reflexivity].
  - destruct (validateCondition L (getIn ks (ledger d))) as [m|] eqn:Hv.
    + right. eexists. split; [right; exists m; repeat split; reflexivity | reflexivity].
    + left. repeat split.
Qed.

(** The loop passes when every key is valid, and otherwise throws the
    error of the first ledger, in list order, whose key is not. *)
Lemma for_of_keys (ks : value) (ledgers : list LedgerDesc) :
  nullish ks = false ->
  (Forall (key_ok L ks) ledgers /\
   Config.for_of (Config.validateNotificationKey L ks) ledgers = Ok tt) \/
  (exists before d after e,
     ledgers = (before ++ d :: after)%list /\ Forall (key_ok L ks) before /\
     key_error L ks d e /\
     Config.for_of (Config.validateNotificationKey L ks) ledgers = Throw e).
Proof.
  intros Hn. induction ledgers as [|d r IH]; simpl.
  - left. split; [constructor | reflexivity].
  - destruct (validateNotificationKey_cases ks d Hn) as [[Hok ->] | (e & He & ->)]; simpl.
    + destruct IH as [[Hall ->] | (before & d' & after & e & -> & Hb & He & ->)].
      * left. split; [now constructor | reflexivity].
      * right. exists (d :: before), d', after, e. repeat split; auto.
    + right. exists [], d, r, e. repeat split; auto.
Qed.

Lemma key_ok_not_missing (ks : value) (d : LedgerDesc) :
  key_ok L ks d -> key_missing ks d -> False.
Proof. unfold key_ok, key_missing. intros [H _] H'. congruence. Qed.

Lemma key_ok_not_invalid (ks : value) (d : LedgerDesc) (m : string) :
  key_ok L ks d -> key_invalid L ks d m -> False.
Proof. unfold key_ok, key_invalid. intros [_ H] [_ H']. congruence. Qed.

Lemma validateNotificationKey_missing (ks : value) (d : LedgerDesc) :
  nullish ks = false ->
  key_missing ks d ->
  Config.validateNotificationKey L ks d =
  Throw (Error ("Missing notification signing keys for ledger: " ++ ledger d)).
Proof.
  intros Hn Hm. unfold Config.validateNotificationKey, key_missing, key_of in *.
  rewrite (get_prop_field ks _ Hn). unfold field. simpl. now rewrite Hm.
Qed.

Lemma validateNotificationKey_invalid (ks : value) (d : LedgerDesc) (m : string) :
  nullish ks = false ->
  key_invalid L ks d m ->
  Config.validateNotificationKey L ks d =
  Throw (Error ("Failed to read signing key for ledger " ++ ledger d ++ ": " ++ m)).
Proof.
  intros Hn [Hu Hv]. unfold Config.validateNotificationKey, key_of in *.
  rewrite (get_prop_field ks _ Hn). unfold field. simpl. now rewrite Hu, Hv.
Qed.

Lemma validateNotificationKey_ok (ks : value) (d : LedgerDesc) :
  nullish ks = false ->
  key_ok L ks d ->
  Config.validateNotificationKey L ks d = Ok tt.
Proof.
  intros Hn [Hu Hv]. unfold Config.validateNotificationKey, key_of in *.
  rewrite (get_prop_field ks _ Hn). unfold field. simpl. now rewrite Hu, Hv.
Qed.

(** The loop throws the error of the first ledger whose check throws. *)
Lemma for_of_first (ks : value) (before : list LedgerDesc) (d : LedgerDesc)
    (after : list LedgerDesc) (e : JsError) :
  nullish ks = false ->
  Forall (key_ok L ks) before ->
  Config.validateNotificationKey L ks d = Throw e ->
  Config.for_of (Config.validateNotificationKey L ks) (before ++ d :: after)%list = Throw e.
Proof.
  intros Hn Hb He. induction Hb as [|d0 r Hd0 _ IH]; simpl.
  - now rewrite He.
  - now rewrite (validateNotificationKey_ok ks d0 Hn Hd0).
Qed.

(** C8, amended.  With [must_verify] false the key checks are skipped
    and the notification check passes.  With [must_verify] true and a
    key map that is a plain object, the configured ledgers are checked in
    list order and the first ledger whose key is missing or refused
    decides the error, the ledgers after it not being looked at: when
    the key map has no value under that ledger's URI the error is
    "Missing notification signing keys for ledger: URI", and when the
    value under its URI is refused as a condition the error is "Failed
    to read signing key for ledger URI: ..." with the validator's
    message.  So a missing key is reported, naming its URI, when every
    ledger before it in the list has a valid key, and likewise a refused
    key.  Validation passes exactly when every configured ledger has a
    key that the validator accepts.  The value under a URI is the key
    map's own property or, for a URI that is the name of a member of
    Object.prototype, the inherited member. *)
Theorem validateNotificationEnv_keys (w : World) (n : Config.Notifications) :
  Config.parseNotificationSignEnv L w = Ok n ->
  (Config.must_verify n = false -> Config.validateNotificationEnv L w = Ok tt) /\
  (Config.must_verify n = true ->
   is_plain_object (Config.keys n) = true ->
   forall ledgers, Config.parseLedgers L w = Ok ledgers ->
     (forall before d after,
        ledgers = (before ++ d :: after)%list ->
        Forall (key_ok L (Config.keys n)) before ->
        (key_missing (Config.keys n) d ->
         Config.validateNotificationEnv L w =
         Throw (Error ("Missing notification signing keys for ledger: " ++ ledger d))) /\
        (forall m, key_invalid L (Config.keys n) d m ->
         Config.validateNotificationEnv L w =
         Throw (Error ("Failed to read signing key for ledger " ++ ledger d ++ ": " ++ m))))
     /\
     (forall e, Config.validateNotificationEnv L w = Throw e ->
        exists before d after,
          ledgers = (before ++ d :: after)%list /\
          Forall (key_ok L (Config.keys n)) before /\
          key_error L (Config.keys n) d e)
     /\
     (Config.validateNotificationEnv L w = Ok tt <->
      Forall (key_ok L (Config.keys n)) ledgers)).
Proof.
  intros Hp. unfold Config.validateNotificationEnv. rewrite Hp. simpl. split.
  - intros ->. reflexivity.
  - intros -> Hplain ledgers ->. simpl.
    assert (Hn : nullish (Config.keys n) = false).
    { destruct (Config.keys n) as [| | | | | |[] ps|[] ps|]; try discriminate; reflexivity. }
    split; [| split].
    + intros before d after -> Hb. split.
      * intros Hm. apply for_of_first; auto.
        now apply validateNotificationKey_missing.
      * intros m Hm. apply for_of_first; auto.
        now apply validateNotificationKey_invalid.
    + destruct (for_of_keys (Config.keys n) ledgers Hn)
        as [[Hall ->] | (before & d & after & e & Hl & Hb & He & ->)].
      * discriminate.
      * intros e' [= <-]. now exists before, d, after.
    + destruct (for_of_keys (Config.keys n) ledgers Hn)
        as [[Hall ->] | (before & d & after & e & Hl & Hb & He & ->)].
      * split; auto.
      * split; [discriminate |]. intros Hall. exfalso. subst ledgers.
        apply Forall_app in Hall. destruct Hall as [_ Hd].
        inversion Hd as [|? ? Hok _]; subst.
        destruct He as [[Hm _] | (m & Hm & _)].
        -- exact (key_ok_not_missing _ _ Hok Hm).
        -- exact (key_ok_not_invalid _ _ _ Hok Hm).
Qed.

End NotificationKeys.

Lemma validateNotificationEnv_keys_witness :
  Config.validateNotificationEnv Sample.libs one_key =
  Throw (Error ("Missing notification signing keys for ledger: " ++ Sample.eur)).
Proof.
  refine (proj1 (proj1 (proj2 (validateNotificationEnv_keys Sample.libs one_key
                          {| Config.must_verify := true;
                             Config.keys :=
                               Sample.object
                                 [(Sample.usd,
                                   VStr "cc:0:3:47DEQpj8HBSa-_TImW-5JCeuQeRkm5NMpJWZG3hSuFU:0")] |}
                          eq_refl) eq_refl eq_refl
                        [ {| currency := "USD"; ledger := Sample.usd |};
                          {| currency := "EUR"; ledger := Sample.eur |} ] eq_refl)
                   [ {| currency := "USD"; ledger := Sample.usd |} ]
                   {| currency := "EUR"; ledger := Sample.eur |} [] eq_refl _) _).
  - constructor; [split; reflexivity | constructor].
  - reflexivity.
Defined.

(** C8 as stated fails when a refused key comes first: the EUR ledger
    has no entry in the key map, yet validation does not name it; it
    stops at the USD ledger, whose key is refused. *)
Lemma validateNotificationEnv_counterexample :
  Config.parseNotificationSignEnv libs_refused_key refused_then_missing =
    Ok {| Config.must_verify := true; Config.keys := refused_key |} /\
  Config.parseLedgers libs_refused_key refused_then_missing =
    Ok [ {| currency := "USD"; ledger := Sample.usd |};
         {| currency := "EUR"; ledger := Sample.eur |} ] /\
  key_missing refused_key {| currency := "EUR"; ledger := Sample.eur |} /\
  exists m,
    validateCondition libs_refused_key (VStr "not-a-condition") = Some m /\
    Config.validateNotificationEnv libs_refused_key refused_then_missing =
      Throw (Error ("Failed to read signing key for ledger http://usd-ledger.example: "
                    ++ m)).
Proof. repeat split. eexists. split; reflexivity. Qed.

Example one_key_error :
  Config.validateNotificationEnv Sample.libs one_key =
  Throw (Error "Missing notification signing keys for ledger: http://eur-ledger.example").
Proof. reflexivity. Qed.

(** A ledger whose URI is the name of a member of Object.prototype is
    not missing from an empty key map: the inherited member is handed to
    the condition validator. *)
Example inherited_key_is_not_missing :
  key_missing (Sample.object []) {| currency := "USD"; ledger := "constructor" |} -> False.
Proof. discriminate. Qed.

(** ** Property maps *)

Lemma lookup_update_same {A} (k : string) (v : A) (ps : list (string * A)) :
  lookup k (update k v ps) = Some v.
Proof.
  induction ps as [|[k' v'] r IH]; simpl.
  - now rewrite String.eqb_refl.
  - destruct (String.eqb_spec k' k); simpl.
    + now rewrite String.eqb_refl.
    + destruct (String.eqb_spec k' k); [contradiction | exact IH].
Qed.

Lemma lookup_update_other {A} (k k' : string) (v : A) (ps : list (string * A)) :
  k <> k' -> lookup k (update k' v ps) = lookup k ps.
Proof.
  intros Hne. induction ps as [|[k0 v0] r IH]; simpl.
  - destruct (String.eqb_spec k' k); [congruence | reflexivity].
  - destruct (String.eqb_spec k0 k'); simpl.
    + subst k0. destruct (String.eqb_spec k' k); [congruence | reflexivity].
    + destruct (String.eqb_spec k0 k); [reflexivity | exact IH].
Qed.

Lemma lookup_remove_same {A} (k : string) (ps : list (string * A)) :
  lookup k (remove k ps) = None.
Proof.
  induction ps as [|[k' v'] r IH]; simpl; [reflexivity |].
  destruct (String.eqb_spec k' k); simpl; [exact IH |].
  destruct (String.eqb_spec k' k); [contradiction | exact IH].
Qed.

Lemma lookup_remove_other {A} (k k' : string) (ps : list (string * A)) :
  k <> k' -> lookup k (remove k' ps) = lookup k ps.
Proof.
  intros Hne. induction ps as [|[k0 v0] r IH]; simpl; [reflexivity |].
  destruct (String.eqb_spec k0 k'); simpl.
  - subst k0. destruct (String.eqb_spec k' k); [congruence | exact IH].
  - destruct (String.eqb_spec k0 k); [reflexivity | exact IH].
Qed.

Lemma lookup_In {A} (k : string) (v : A) (ps : list (string * A)) :
  lookup k ps = Some v -> In k (map fst ps).
Proof.
  induction ps as [|[k' v'] r IH]; simpl; [discriminate |].
  destruct (String.eqb_spec k' k); [now left | intros H; right; now apply IH].
Qed.

(** What a name inherits is no object of the program's. *)
Lemma inherited_cases (k : string) : inherited k = VBuiltin k \/ inherited k = VUndefined.
Proof. unfold inherited. destruct (existsb _ _); auto. Qed.

(** [getIn] reaches an object, frozen or not, only as an own property. *)
Lemma getIn_own (o : value) (k : string) (v : value) :
  getIn o k = v ->
  (exists kd cps, v = VObject kd cps \/ v = VFrozen kd cps) ->
  nullish o = false /\ lookup k (entries o) = Some v.
Proof.
  intros <- (kd & cps & Hv). unfold getIn in *.
  destruct o; simpl in *;
    try (destruct (inherited_cases k) as [E | E]; rewrite E in Hv;
         destruct Hv; discriminate);
    try (destruct Hv; discriminate);
    (split; [reflexivity |]);
    (destruct (lookup k _) as [v|]; [reflexivity |]);
    destruct (inherited_cases k) as [E | E]; rewrite E in Hv;
    destruct Hv; discriminate.
Qed.

Lemma getIn_object (o : value) (k : string) (kd : ObjKind) (cps : props) :
  getIn o k = VObject kd cps ->
  nullish o = false /\ lookup k (entries o) = Some (VObject kd cps).
Proof. intros H. apply (getIn_own o k _ H). exists kd, cps. now left. Qed.

Lemma Object_keys_entries (o : value) :
  nullish o = false -> Multiledger.Object_keys o = Ok (map fst (entries o)).
Proof. destruct o; simpl; try discriminate; reflexivity. Qed.

(** ** The registry (C4, C5, C7, C10) *)

Section RegistryFacts.

Variable L : Libs.
Variable cfg : Config.LocalConfig.

(** The loop throws the error of the first turn that throws. *)
Lemma forEach_key_throw_at (before : list string) (ledgerId : string)
    (after : list string) (acc : list (string * Multiledger.LedgerPlugin)) (e : JsError) :
  (forall id', In id' before -> succeeds L cfg id') ->
  fst (Multiledger.buildLedger L cfg ledgerId) = Throw e ->
  fst (Multiledger.forEach_key L cfg (before ++ ledgerId :: after)%list acc) = Throw e.
Proof.
  revert acc. induction before as [|a r IH]; intros acc Hb He; simpl.
  - destruct (Multiledger.buildLedger L cfg ledgerId) as [[h|e'] lines];
      simpl in He; [discriminate | now injection He as ->].
  - destruct (Hb a (or_introl eq_refl)) as (h & lines & ->).
    specialize (IH (update a h acc) (fun id' H => Hb id' (or_intror H)) He).
    destruct (Multiledger.forEach_key L cfg _ _). exact IH.
Qed.

Lemma forEach_key_failed (ids : list string) (ledgerId : string)
    (acc : list (string * Multiledger.LedgerPlugin)) :
  In ledgerId ids ->
  failed (fst (Multiledger.buildLedger L cfg ledgerId)) ->
  failed (fst (Multiledger.forEach_key L cfg ids acc)).
Proof.
  revert acc. induction ids as [|a r IH]; intros acc Hin Hf; simpl; [contradiction |].
  destruct (Multiledger.buildLedger L cfg a) as [[h|e'] lines] eqn:Ha.
  - destruct Hin as [-> | Hin].
    + rewrite Ha in Hf. destruct Hf as [e He]. discriminate.
    + specialize (IH (update a h acc) Hin Hf).
      destruct (Multiledger.forEach_key L cfg r _). exact IH.
  - now exists e'.
Qed.

(** After a loop that did not throw, every key has the handle its turn
    built, and the lines of its turn are in the log. *)
Lemma forEach_key_lookup (ids : list string)
    (acc ls : list (string * Multiledger.LedgerPlugin))
    (lines : list Multiledger.LogEntry) (ledgerId : string) :
  Multiledger.forEach_key L cfg ids acc = (Ok ls, lines) ->
  (In ledgerId ids ->
   exists handle l, Multiledger.buildLedger L cfg ledgerId = (Ok handle, l) /\
                    lookup ledgerId ls = Some handle /\ incl l lines) /\
  (~ In ledgerId ids -> lookup ledgerId ls = lookup ledgerId acc).
Proof.
  revert acc lines. induction ids as [|a r IH]; intros acc lines; simpl.
  - intros [= <- <-]. split; [contradiction | reflexivity].
  - destruct (Multiledger.buildLedger L cfg a) as [[h|e'] l] eqn:Ha; [| discriminate].
    destruct (Multiledger.forEach_key L cfg r (update a h acc)) as [res lines'] eqn:Hr.
    intros [= -> <-]. destruct (IH _ _ Hr) as [Hin Hout].
    destruct (in_dec string_dec ledgerId r) as [Hr' | Hr'].
    + split; [| tauto]. intros _.
      destruct (Hin Hr') as (h' & l' & Hb & Hl & Hi).
      exists h', l'. repeat split; auto. now apply incl_appr.
    + split.
      * intros [-> | Hc]; [| contradiction].
        exists h, l. repeat split; auto.
        -- rewrite (Hout Hr'). apply lookup_update_same.
        -- now apply incl_appl.
      * intros Hn. rewrite (Hout Hr'). apply lookup_update_other.
        intros E. apply Hn. left. now symmetry.
Qed.

End RegistryFacts.

Section Build.

Variable L : Libs.
Variable cfg : Config.LocalConfig.

(** The deprecated-key block never throws on an object. *)
Lemma migrate_object (kd : ObjKind) (cps : props) :
  Multiledger.migrate (VObject kd cps) =
  (Ok (VObject kd (fst (migrated cps))), snd (migrated cps)).
Proof.
  unfold Multiledger.migrate, migrated. simpl.
  destruct (lookup "account_uri" cps) as [uri|]; simpl; [| reflexivity].
  destruct (truthy uri); reflexivity.
Qed.

Lemma migrated_type (cps : props) :
  lookup "type" (fst (migrated cps)) = lookup "type" cps.
Proof.
  unfold migrated. destruct (lookup "account_uri" cps) as [uri|]; [| reflexivity].
  destruct (truthy uri); [| reflexivity]. simpl.
  rewrite lookup_remove_other by discriminate.
  now rewrite lookup_update_other by discriminate.
Qed.

(** A turn of the loop on a credential object *)
Lemma buildLedger_object (ledgerId : string) (kd : ObjKind) (cps : props) :
  getIn (Config.ledgerCredentials cfg) ledgerId = VObject kd cps ->
  Multiledger.buildLedger L cfg ledgerId =
  (LedgerPlugin <-
     Multiledger.require L (Multiledger.concat_value L "ilp-plugin-" (type_of cps)) ;;
   Ok {| Multiledger.plugin := LedgerPlugin;
         Multiledger.options :=
           {| Multiledger.id := ledgerId;
              Multiledger.auth :=
                VObject kd (update "type" (type_of cps) (fst (migrated cps)));
              Multiledger.debugReplyNotifications :=
                Config.debugReplyNotifications (Config.features cfg);
              Multiledger.debugAutofund :=
                if Config.debugAutoFund (Config.features cfg)
                then Some {| Multiledger.admin := Config.admin cfg;
                             Multiledger.connector :=
                               getIn (Config.server cfg) "base_uri" |}
                else None;
              Multiledger.log :=
                Multiledger.concat_value L "plugin-" (type_of cps) |} |},
   snd (migrated cps)).
Proof.
  intros Hc. unfold Multiledger.buildLedger. rewrite Hc, migrate_object.
  unfold Multiledger.construct, type_of. simpl.
  rewrite lookup_update_same, migrated_type. reflexivity.
Qed.

(** A turn of the loop on a frozen credential object: the write of
    [account], or else the write of [type], throws, after the deprecation
    warning when [account_uri] is truthy. *)
Lemma buildLedger_frozen (ledgerId : string) (kd : ObjKind) (cps : props) :
  getIn (Config.ledgerCredentials cfg) ledgerId = VFrozen kd cps ->
  Multiledger.buildLedger L cfg ledgerId =
  (Throw TypeError,
   if truthy (getIn (VFrozen kd cps) "account_uri") then [Multiledger.deprecation] else []).
Proof.
  intros Hc. unfold Multiledger.buildLedger, Multiledger.migrate. rewrite Hc.
  unfold getIn. simpl get_prop. cbv iota.
  destruct (truthy _); reflexivity.
Qed.

(** C4, amended.  For a ledger credential that is a writable object (one
    that is not frozen) and whose type names a plugin module that is not
    installed, the turn of that ledger throws the module loader's own
    lookup error for the module [ilp-plugin-TYPE], not an error of the
    registry's; building the registry fails, and with that very error
    when the turns of the ledgers before it succeed. *)
Theorem unknown_plugin_type (ledgerId : string) (kd : ObjKind) (cps : props) (ty : string) :
  getIn (Config.ledgerCredentials cfg) ledgerId = VObject kd cps ->
  lookup "type" cps = Some (VStr ty) ->
  ty <> "" ->
  plugin_installed L ("ilp-plugin-" ++ ty) = false ->
  fst (Multiledger.buildLedger L cfg ledgerId) =
    Throw (CannotFindModule ("ilp-plugin-" ++ ty)) /\
  failed (fst (Multiledger.buildLedgers L cfg)) /\
  (forall before after,
     map fst (entries (Config.ledgerCredentials cfg)) = (before ++ ledgerId :: after)%list ->
     (forall id', In id' before -> succeeds L cfg id') ->
     fst (Multiledger.buildLedgers L cfg) = Throw (CannotFindModule ("ilp-plugin-" ++ ty))).
Proof.
  intros Hc Hty Hne Hmiss.
  assert (Hturn : fst (Multiledger.buildLedger L cfg ledgerId) =
                  Throw (CannotFindModule ("ilp-plugin-" ++ ty))).
  { rewrite (buildLedger_object ledgerId kd cps Hc). unfold type_of. rewrite Hty.
    unfold or_v. simpl truthy. destruct (String.eqb_spec ty ""); [contradiction |].
    unfold Multiledger.require, Multiledger.concat_value. simpl negb. cbv iota.
    rewrite Hmiss. reflexivity. }
  destruct (getIn_object _ _ _ _ Hc) as (Hn & Hl).
  unfold Multiledger.buildLedgers. rewrite (Object_keys_entries _ Hn).
  repeat split.
  - exact Hturn.
  - apply (forEach_key_failed L cfg _ ledgerId); [exact (lookup_In _ _ _ Hl) |].
    rewrite Hturn. now eexists.
  - intros before after Hk Hb. rewrite Hk.
    now apply forEach_key_throw_at.
Qed.

(** The handle a successful build registers for a credential object *)
Lemma built_handle (ls : list (string * Multiledger.LedgerPlugin))
    (ledgerId : string) (kd : ObjKind) (cps : props) :
  getIn (Config.ledgerCredentials cfg) ledgerId = VObject kd cps ->
  fst (Multiledger.buildLedgers L cfg) = Ok ls ->
  exists handle,
    lookup ledgerId ls = Some handle /\
    Multiledger.id (Multiledger.options handle) = ledgerId /\
    Multiledger.auth (Multiledger.options handle) =
      VObject kd (update "type" (type_of cps) (fst (migrated cps))) /\
    incl (snd (migrated cps)) (snd (Multiledger.buildLedgers L cfg)).
Proof.
  intros Hc Hb.
  destruct (getIn_object _ _ _ _ Hc) as (Hn & Hl).
  unfold Multiledger.buildLedgers in *. rewrite (Object_keys_entries _ Hn) in *.
  destruct (Multiledger.forEach_key L cfg _ []) as [res lines] eqn:Hf.
  simpl in Hb. subst res.
  destruct (proj1 (forEach_key_lookup L cfg _ _ _ _ ledgerId Hf) (lookup_In _ _ _ Hl))
    as (handle & l & Hturn & Hls & Hincl).
  rewrite (buildLedger_object ledgerId kd cps Hc) in Hturn.
  destruct (Multiledger.require L _) as [m|]; simpl in Hturn; [| discriminate].
  injection Hturn as <- <-.
  eexists. split; [exact Hls |]. simpl. repeat split. exact Hincl.
Qed.

(** C5, amended.  For every ledger credential that is a writable object
    (one that is not frozen).  When its [account_uri] is truthy (a
    non-empty string, say), the deprecated-key block does not throw: it
    logs the deprecation warning and leaves the credential with
    [account] equal to the original [account_uri] value and without the
    [account_uri] key; and after a registry build that succeeds the
    credential passed to the plugin constructor has [account] equal to
    the original [account_uri] value and no [account_uri] key, and the
    deprecation warning is in the log.  When its [account_uri] is
    absent or falsy (the empty string, say), the block changes nothing
    and logs nothing, and after a registry build that succeeds the
    credential passed to the plugin constructor is the original one
    with its [type] set (to its own type, or to 'bells'): it keeps
    whatever [account_uri] key it had, and gets no [account]. *)
Theorem account_uri_migrated (ledgerId : string) (kd : ObjKind) (cps : props) :
  getIn (Config.ledgerCredentials cfg) ledgerId = VObject kd cps ->
  (forall uri,
     lookup "account_uri" cps = Some uri ->
     truthy uri = true ->
     Multiledger.migrate (VObject kd cps) =
       (Ok (VObject kd (remove "account_uri" (update "account" uri cps))),
        [Multiledger.deprecation]) /\
     forall ls,
       fst (Multiledger.buildLedgers L cfg) = Ok ls ->
       exists handle,
         lookup ledgerId ls = Some handle /\
         Multiledger.id (Multiledger.options handle) = ledgerId /\
         getIn (Multiledger.auth (Multiledger.options handle)) "account" = uri /\
         lookup "account_uri" (entries (Multiledger.auth (Multiledger.options handle)))
           = None /\
         In Multiledger.deprecation (snd (Multiledger.buildLedgers L cfg)))
  /\
  (truthy (getIn (VObject kd cps) "account_uri") = false ->
   Multiledger.migrate (VObject kd cps) = (Ok (VObject kd cps), []) /\
   forall ls,
     fst (Multiledger.buildLedgers L cfg) = Ok ls ->
     exists handle,
       lookup ledgerId ls = Some handle /\
       Multiledger.id (Multiledger.options handle) = ledgerId /\
       Multiledger.auth (Multiledger.options handle) =
         VObject kd (update "type" (type_of cps) cps)).
Proof.
  intros Hc. split.
  - intros uri Huri Ht.
    assert (Hm : migrated cps =
                 (remove "account_uri" (update "account" uri cps),
                  [Multiledger.deprecation])).
    { unfold migrated. now rewrite Huri, Ht. }
    split; [now rewrite migrate_object, Hm |].
    intros ls Hb.
    destruct (built_handle ls ledgerId kd cps Hc Hb) as (handle & Hls & Hid & Hauth & Hincl).
    rewrite Hm in Hauth, Hincl. simpl in Hauth, Hincl.
    exists handle. rewrite Hauth. repeat split; auto.
    + unfold getIn. simpl.
      rewrite lookup_update_other by discriminate.
      rewrite lookup_remove_other by discriminate.
      now rewrite lookup_update_same.
    + simpl. rewrite lookup_update_other by discriminate. apply lookup_remove_same.
    + apply Hincl. now left.
  - intros Hf.
    assert (Hm : migrated cps = (cps, [])).
    { unfold migrated. unfold getIn in Hf. simpl in Hf.
      destruct (lookup "account_uri" cps) as [uri|]; [| reflexivity].
      now rewrite Hf. }
    split; [now rewrite migrate_object, Hm |].
    intros ls Hb.
    destruct (built_handle ls ledgerId kd cps Hc Hb) as (handle & Hls & Hid & Hauth & _).
    rewrite Hm in Hauth. exists handle. auto.
Qed.

End Build.

Lemma unknown_plugin_type_witness :
  fst (Multiledger.buildLedger Sample.libs
         (configured (Sample.object [(Sample.usd, Sample.unknown_type)])) Sample.usd) =
  Throw (CannotFindModule ("ilp-plugin-" ++ "nosuch")).
Proof.
  refine (proj1 (unknown_plugin_type Sample.libs
                   (configured (Sample.object [(Sample.usd, Sample.unknown_type)]))
                   Sample.usd Plain
                   [("account_uri", VStr "http://usd-ledger.example/accounts/mark");
                    ("username", VStr "mark"); ("password", VStr "mark");
                    ("type", VStr "nosuch")]
                   "nosuch" _ _ _ _)); try reflexivity.
  discriminate.
Defined.

(** C4 as stated fails: for a credential of the unknown type [nosuch] the
    build throws what [require] throws for a module it cannot find, the
    generic lookup failure, and no error of its own. *)
Lemma unknown_plugin_type_counterexample :
  Multiledger.buildLedgers Sample.libs
    (configured (Sample.object [(Sample.usd, Sample.unknown_type)])) =
  (Throw (CannotFindModule "ilp-plugin-nosuch"), [Multiledger.deprecation]).
Proof. reflexivity. Qed.

Lemma account_uri_migrated_witness :
  Multiledger.migrate Sample.complete =
    (Ok (VObject Plain
           (remove "account_uri"
              (update "account" (VStr "http://usd-ledger.example/accounts/mark")
                 [("account_uri", VStr "http://usd-ledger.example/accounts/mark");
                  ("username", VStr "mark"); ("password", VStr "mark")]))),
     [Multiledger.deprecation]) /\
  forall ls,
    fst (Multiledger.buildLedgers Sample.libs
           (configured (Sample.object [(Sample.usd, Sample.complete)]))) = Ok ls ->
    exists handle,
      lookup Sample.usd ls = Some handle /\
      Multiledger.id (Multiledger.options handle) = Sample.usd /\
      getIn (Multiledger.auth (Multiledger.options handle)) "account" =
        VStr "http://usd-ledger.example/accounts/mark" /\
      lookup "account_uri" (entries (Multiledger.auth (Multiledger.options handle))) = None /\
      In Multiledger.deprecation
         (snd (Multiledger.buildLedgers Sample.libs
                 (configured (Sample.object [(Sample.usd, Sample.complete)])))).
Proof.
  apply (proj1 (account_uri_migrated Sample.libs
                  (configured (Sample.object [(Sample.usd, Sample.complete)]))
                  Sample.usd Plain
                  [("account_uri", VStr "http://usd-ledger.example/accounts/mark");
                   ("username", VStr "mark"); ("password", VStr "mark")]
                  eq_refl)
               (VStr "http://usd-ledger.example/accounts/mark")); reflexivity.
Defined.

Example registry_of_a_legacy_credential :
  exists handle,
    Multiledger.buildLedgers Sample.libs
      (configured (Sample.object [(Sample.usd, Sample.complete)])) =
      (Ok [(Sample.usd, handle)], [Multiledger.deprecation]) /\
    Multiledger.auth (Multiledger.options handle) =
      Sample.object [("username", VStr "mark"); ("password", VStr "mark");
                     ("account", VStr "http://usd-ledger.example/accounts/mark");
                     ("type", VStr "bells")].
Proof. eexists. split; reflexivity. Qed.

(** C5 as stated fails on a credential that supplies an empty
    [account_uri]: the guard of the deprecated-key block is its
    truthiness, so the build passes the credential on with its
    [account_uri] key and without [account], and logs nothing. *)
Lemma account_uri_migrated_counterexample :
  exists handle,
    Multiledger.buildLedgers Sample.libs
      (configured (Sample.object [(Sample.usd, Sample.empty_uri)])) =
      (Ok [(Sample.usd, handle)], []) /\
    lookup "account_uri" (entries (Multiledger.auth (Multiledger.options handle))) =
      Some (VStr "") /\
    lookup "account" (entries (Multiledger.auth (Multiledger.options handle))) = None.
Proof. eexists. repeat split. Qed.

(** ** Status (C7, C10) *)

(** C7.  [getStatus] returns true exactly when every registered handle
    reports connected, and it leaves the registry as it found it. *)
Theorem getStatus_all_connected (isConnected : Multiledger.LedgerPlugin -> bool)
    (this : Multiledger.t) :
  (fst (Multiledger.getStatus isConnected this) = true <->
   forall ledgerId handle,
     In (ledgerId, handle) (Multiledger.ledgers this) -> isConnected handle = true) /\
  snd (Multiledger.getStatus isConnected this) = this.
Proof.
  split; [| reflexivity]. unfold Multiledger.getStatus, Multiledger.every. simpl.
  rewrite forallb_forall. split.
  - intros H ledgerId handle Hin. exact (H (ledgerId, handle) Hin).
  - intros H [ledgerId handle] Hin. exact (H ledgerId handle Hin).
Qed.

(** C10.  A registry built from a configuration with no ledger
    credentials (the credentials, frozen or not, have no key) has no
    handle and the health flag "not ok", and its [getStatus] returns
    true whatever the handles would report. *)
Theorem getStatus_no_ledgers (L : Libs) (cfg : Config.LocalConfig) :
  Multiledger.Object_keys (Config.ledgerCredentials cfg) = Ok [] ->
  exists this,
    Multiledger.new L cfg = (Ok this, []) /\
    Multiledger.ledgers this = [] /\
    Multiledger.ledgersHealth this = statusNotOk /\
    forall isConnected, Multiledger.getStatus isConnected this = (true, this).
Proof.
  intros Hc. unfold Multiledger.new, Multiledger.buildLedgers. rewrite Hc. simpl.
  eexists. repeat split.
Qed.

Lemma getStatus_no_ledgers_witness :
  exists this,
    Multiledger.new Sample.libs Sample.blank = (Ok this, []) /\
    Multiledger.ledgers this = [] /\
    Multiledger.ledgersHealth this = statusNotOk /\
    forall isConnected, Multiledger.getStatus isConnected this = (true, this).
Proof. apply (getStatus_no_ledgers Sample.libs Sample.blank). reflexivity. Defined.

Example no_ledgers_frozen :
  fst (Multiledger.new Sample.libs (Config.loadConfig Sample.blank)) =
  Ok {| Multiledger.config := Config.loadConfig Sample.blank;
        Multiledger.ledgers := [];
        Multiledger.ledgersHealth := statusNotOk |}.
Proof. reflexivity. Qed.

(** ** Ledger tokens: [parseLedgers] and [generateDefaultPairs] *)

Lemma prefix_at (s : string) :
  prefix "@" s = match s with
                 | String c _ => (c =? "@")%char
                 | EmptyString => false
                 end.
Proof.
  destruct s as [|c r]; [reflexivity |]. cbn [prefix].
  destruct (ascii_dec "@" c) as [<- | Hne].
  - rewrite Ascii.eqb_refl. now destruct r.
  - symmetry. apply Ascii.eqb_neq. congruence.
Qed.

(** [indexOf('@')] finds the first '@': the text before it has none. *)
Lemma index_at (s : string) :
  match index 0 "@" s with
  | Some n =>
      exists c l, s = c ++ "@" ++ l /\ has_at c = false /\ n = String.length c
  | None => has_at s = false
  end.
Proof.
  induction s as [|a r IH]; [reflexivity |].
  change (index 0 "@" (String a r))
    with (if prefix "@" (String a r) then Some 0
          else match index 0 "@" r with Some n => Some (S n) | None => None end).
  rewrite prefix_at. simpl has_at.
  destruct (Ascii.eqb_spec a "@") as [-> | Hne]; simpl.
  - exists "", r. repeat split.
  - destruct (index 0 "@" r) as [n|].
    + destruct IH as (c & l & -> & Hc & ->).
      exists (String a c), l. simpl. rewrite Hc.
      destruct (Ascii.eqb_spec a "@"); [contradiction |]. repeat split.
    + exact IH.
Qed.

Lemma index_at_append (c l : string) :
  has_at c = false -> index 0 "@" (c ++ "@" ++ l) = Some (String.length c).
Proof.
  induction c as [|a r IH]; intros Hc.
  - change (index 0 "@" ("" ++ "@" ++ l))
      with (if prefix "@" (String "@" l) then Some 0
            else match index 0 "@" l with Some n => Some (S n) | None => None end).
    now rewrite prefix_at.
  - simpl in Hc. apply orb_false_iff in Hc. destruct Hc as [Ha Hr].
    change (index 0 "@" (String a r ++ "@" ++ l))
      with (if prefix "@" (String a (r ++ "@" ++ l)) then Some 0
            else match index 0 "@" (r ++ "@" ++ l) with
                 | Some n => Some (S n)
                 | None => None
                 end).
    rewrite prefix_at, Ha, (IH Hr). reflexivity.
Qed.

Lemma has_at_append (c l : string) : has_at (c ++ "@" ++ l) = true.
Proof.
  induction c as [|a r IH]; [reflexivity |].
  change (((a =? "@")%char || has_at (r ++ "@" ++ l)) = true).
  rewrite IH. apply orb_true_r.
Qed.

Lemma substring_whole (s : string) : substring 0 (String.length s) s = s.
Proof. induction s as [|a r IH]; simpl; [reflexivity | now rewrite IH]. Qed.

Lemma substring_head (c r : string) : substring 0 (String.length c) (c ++ r) = c.
Proof.
  induction c as [|a c IH]; simpl.
  - now destruct r.
  - now rewrite IH.
Qed.

Lemma substring_tail (c r : string) (m : nat) :
  substring (String.length c) m (c ++ r) = substring 0 m r.
Proof. induction c as [|a c IH]; simpl; [reflexivity | exact IH]. Qed.

Lemma length_append (c r : string) :
  String.length (c ++ r) = String.length c + String.length r.
Proof. induction c as [|a c IH]; simpl; [reflexivity | now rewrite IH]. Qed.

Lemma substring_after (c l : string) :
  substring (String.length c + 1)
            (String.length (c ++ "@" ++ l) - (String.length c + 1))
            (c ++ "@" ++ l) = l.
Proof.
  induction c as [|a c IH].
  - simpl. rewrite Nat.sub_0_r. apply substring_whole.
  - exact IH.
Qed.

(** The token [c@l] with no '@' in [c] is split into [c] and [l]. *)
Lemma parseLedger_token (c l : string) :
  has_at c = false ->
  Config.parseLedger (VStr (c ++ "@" ++ l)) = Ok {| currency := c; ledger := l |}.
Proof.
  intros Hc. unfold Config.parseLedger. rewrite (index_at_append c l Hc).
  now rewrite substring_head, substring_after.
Qed.

(** The currency [parseLedger] returns holds no '@'. *)
Lemma parseLedger_currency (token : value) (d : LedgerDesc) :
  Config.parseLedger token = Ok d -> has_at (currency d) = false.
Proof.
  destruct token; try discriminate.
  pose proof (index_at s) as Hi.
  destruct (index 0 "@" s) as [n|] eqn:Hn.
  - destruct Hi as (c & l & -> & Hc & ->).
    rewrite (parseLedger_token c l Hc). now intros [= <-].
  - unfold Config.parseLedger. rewrite Hn. now intros [= <-].
Qed.

(** [parseLedger] throws on what is not a string, and a TypeError. *)
Lemma parseLedger_Throw (token : value) (e : JsError) :
  Config.parseLedger token = Throw e -> e = TypeError /\ forall s, token <> VStr s.
Proof.
  destruct token; simpl; try (intros [= <-]; split; [reflexivity | discriminate]).
  now destruct (index 0 "@" s).
Qed.

(** X1.  [parseLedgers] splits a token at its first '@': the currency is
    the text before it and holds no '@', the ledger is all the text after
    it; a token without '@' gives an empty currency and the whole token as
    ledger; anything but a string throws a TypeError. *)
Theorem parseLedger_first_separator (token : value) :
  match Config.parseLedger token with
  | Ok d =>
      exists s, token = VStr s /\
        has_at (currency d) = false /\
        if has_at s then s = currency d ++ "@" ++ ledger d
        else currency d = "" /\ ledger d = s
  | Throw e => e = TypeError /\ forall s, token <> VStr s
  end.
Proof.
  destruct token; try (split; [reflexivity | discriminate]).
  pose proof (index_at s) as Hi.
  destruct (index 0 "@" s) as [n|] eqn:Hn.
  - destruct Hi as (c & l & -> & Hc & ->).
    rewrite (parseLedger_token c l Hc). exists (c ++ "@" ++ l).
    rewrite has_at_append. simpl. auto.
  - unfold Config.parseLedger. rewrite Hn. exists s. rewrite Hi. simpl. auto.
Qed.

(** X2.  The token [generateDefaultPairs] writes for a descriptor that
    [parseLedgers] produced, currency then '@' then ledger, parses back to
    that descriptor. *)
Theorem parseLedger_round_trip (token : value) (d : LedgerDesc) :
  Config.parseLedger token = Ok d ->
  Config.parseLedger (VStr (currency d ++ "@" ++ ledger d)) = Ok d.
Proof.
  intros Hd. rewrite (parseLedger_token _ _ (parseLedger_currency token d Hd)).
  now destruct d.
Qed.

Lemma parseLedger_round_trip_witness :
  Config.parseLedger (VStr ("USD" ++ "@" ++ "http://usd-ledger.example/a@b")) =
  Ok {| currency := "USD"; ledger := "http://usd-ledger.example/a@b" |}.
Proof.
  apply (parseLedger_round_trip (VStr "USD@http://usd-ledger.example/a@b")
           {| currency := "USD"; ledger := "http://usd-ledger.example/a@b" |}).
  reflexivity.
Defined.

Section Ledgers.

Variable L : Libs.

Lemma array_map_parseLedger (l : list value) :
  match Config.array_map Config.parseLedger l with
  | Ok ledgers => Forall2 (fun x d => Config.parseLedger x = Ok d) l ledgers
  | Throw e => e = TypeError /\ exists x, In x l /\ forall s, x <> VStr s
  end.
Proof.
  induction l as [|x r IH]; simpl; [constructor |].
  destruct (Config.parseLedger x) as [d|e] eqn:Hd; simpl.
  - destruct (Config.array_map Config.parseLedger r) as [ds|e]; simpl.
    + now constructor.
    + destruct IH as (-> & y & Hy & Hs). split; [reflexivity |].
      exists y. split; [now right | exact Hs].
  - destruct (parseLedger_Throw x e Hd) as (-> & Hs).
    split; [reflexivity |]. exists x. split; [now left | exact Hs].
Qed.

(** X3.  When LEDGERS (or the default '[]') parses as JSON,
    [parseLedgers] returns one descriptor per element, in order, if the
    value is an array of strings, and throws a TypeError if it is not an
    array or if one of its elements is not a string. *)
Theorem parseLedgers_outcome (w : World) (v : value) :
  Config.parse L (or_default (Config.getEnv w Config.envPrefix "LEDGERS") "[]") = Ok v ->
  match Config.parseLedgers L w with
  | Ok ledgers =>
      exists ps, is_array v = Some ps /\
        Forall2 (fun x d => Config.parseLedger x = Ok d) (map snd ps) ledgers
  | Throw e =>
      e = TypeError /\
      forall ps, is_array v = Some ps ->
        exists x, In x (map snd ps) /\ forall s, x <> VStr s
  end.
Proof.
  intros Hv. unfold Config.parseLedgers. rewrite Hv. simpl.
  destruct v as [| | | | | |[] ps|[] ps|]; try (split; [reflexivity | discriminate]);
    simpl is_array;
    pose proof (array_map_parseLedger (map snd ps)) as H;
    (destruct (Config.array_map Config.parseLedger (map snd ps)) as [ds|e];
     [ now exists ps
     | destruct H as (-> & Hx); split; [reflexivity |]; now intros ps' [= <-] ]).
Qed.

End Ledgers.

Lemma parseLedgers_outcome_witness :
  exists ps,
    mk_array [VStr "USD@http://usd-ledger.example"; VStr "EUR@http://eur-ledger.example"]
      = VObject Array ps /\
    Forall2 (fun x d => Config.parseLedger x = Ok d) (map snd ps)
      [ {| currency := "USD"; ledger := "http://usd-ledger.example" |};
        {| currency := "EUR"; ledger := "http://eur-ledger.example" |} ].
Proof.
  destruct (parseLedgers_outcome Sample.libs (Sample.world [Sample.two_ledgers])
              (mk_array [VStr "USD@http://usd-ledger.example";
                         VStr "EUR@http://eur-ledger.example"]) eq_refl)
    as (ps & [= <-] & H).
  eexists. split; [reflexivity | exact H].
Defined.

(** ** The admin credential: [validateAdminEnv] *)

Lemma guarded_access_None (w : World) (o : option string) :
  Config.guarded_access w (of_env o) = None <-> names_readable w o.
Proof.
  unfold Config.guarded_access, names_readable, readable. destruct o as [p|]; simpl.
  - destruct (String.eqb_spec p ""); simpl.
    + split; [| reflexivity]. intros _ q [= <-] Hq. contradiction.
    + destruct (files w p) as [content|m] eqn:Hf.
      * split; [| reflexivity]. intros _ q [= <-] _. now exists content.
      * split; [discriminate |]. intros H.
        destruct (H p eq_refl n) as [content Hc]. congruence.
  - split; [| reflexivity]. intros _ q Hq. discriminate.
Qed.

Lemma access_all_None (w : World) (c k a : option string) :
  Config.access_all w (of_env c) (of_env k) (of_env a) = None <->
  names_readable w c /\ names_readable w k /\ names_readable w a.
Proof.
  unfold Config.access_all. rewrite <- !guarded_access_None.
  destruct (Config.guarded_access w (of_env c)); [intuition discriminate |].
  destruct (Config.guarded_access w (of_env k)); [intuition discriminate |].
  intuition.
Qed.

(** X4.  The admin check passes exactly when ADMIN_CERT and ADMIN_KEY are
    both set or both unset and each of ADMIN_CERT, ADMIN_KEY and ADMIN_CA
    that is set and not empty names a readable file; an empty value
    counts as set for the pairing and is not opened.  When it fails the
    error is "Missing ADMIN_CERT or ADMIN_KEY" or "Failed to read admin
    credentials: ..." with the message of the file error. *)
Theorem validateAdminEnv_outcome (w : World) :
  (Config.validateAdminEnv w = Ok tt <->
   (Config.getEnv w Config.envPrefix "ADMIN_CERT" = None <->
    Config.getEnv w Config.envPrefix "ADMIN_KEY" = None) /\
   names_readable w (Config.getEnv w Config.envPrefix "ADMIN_CERT") /\
   names_readable w (Config.getEnv w Config.envPrefix "ADMIN_KEY") /\
   names_readable w (Config.getEnv w Config.envPrefix "ADMIN_CA"))
  /\
  (forall e, Config.validateAdminEnv w = Throw e ->
     e = Error "Missing ADMIN_CERT or ADMIN_KEY" \/
     exists m, e = Error ("Failed to read admin credentials: " ++ m)).
Proof.
  unfold Config.validateAdminEnv, Config.parseAdminEnv. cbn [Config.cert Config.key Config.ca].
  pose proof (access_all_None w (Config.getEnv w Config.envPrefix "ADMIN_CERT")
                (Config.getEnv w Config.envPrefix "ADMIN_KEY")
                (Config.getEnv w Config.envPrefix "ADMIN_CA")) as Ha.
  destruct (Config.getEnv w Config.envPrefix "ADMIN_CERT") as [c|],
           (Config.getEnv w Config.envPrefix "ADMIN_KEY") as [k|];
    cbn [of_env is_undefined Bool.eqb negb].
  - destruct (Config.access_all w _ _ _) as [m|]; split.
    + split; [discriminate |]. intros [_ H]. apply Ha in H. discriminate.
    + intros e [= <-]. right. now exists m.
    + split; [intros _ | reflexivity]. split; [split; discriminate | now apply Ha].
    + discriminate.
  - split; [split; [discriminate | intros [[_ H] _]; discriminate (H eq_refl)] |].
    intros e [= <-]. now left.
  - split; [split; [discriminate | intros [[H _] _]; discriminate (H eq_refl)] |].
    intros e [= <-]. now left.
  - destruct (Config.access_all w _ _ _) as [m|]; split.
    + split; [discriminate |]. intros [_ H]. apply Ha in H. discriminate.
    + intros e [= <-]. right. now exists m.
    + split; [intros _ | reflexivity]. split; [tauto | now apply Ha].
    + discriminate.
Qed.

(** ** The parts of an assembled configuration *)

Lemma or_default_truthy (o : option string) (d : string) :
  d <> "" -> truthy (VStr (or_default o d)) = true.
Proof.
  intros Hd. unfold or_default. destruct o as [s|]; simpl.
  - destruct (String.eqb_spec s ""); simpl.
    + now destruct (String.eqb_spec d "").
    + now destruct (String.eqb_spec s "").
  - now destruct (String.eqb_spec d "").
Qed.

Lemma truthy_or_v (a b : value) : truthy (or_v a b) = truthy a || truthy b.
Proof. unfold or_v. destruct (truthy a) eqn:Ha; simpl; [exact Ha | reflexivity]. Qed.

(** The end of a successful assembly, from the test-mode switch on *)
Ltac assembly_tail L w :=
  let H := fresh "H" in
  let test := fresh "test" in
  destruct (Config.useTestConfig L w) as [test|]; simpl; [| discriminate];
  intros H; split; [reflexivity |]; exists test; split; [reflexivity |];
  destruct test;
  [ destruct (empty_length _); simpl in H; [| discriminate]
  | destruct (Config.parseCredentials L w); simpl in H; [| discriminate] ];
  (destruct (Config.parseNotificationSignEnv L w); simpl in H; [| discriminate]);
  injection H as <-; simpl; repeat split; try reflexivity; try discriminate.

Section Parts.

Variable L : Libs.

(** What a successful assembly went through besides the pairs and the
    numeric knobs, and the fields it computed from it. *)
Lemma getLocalConfig_parts (w : World) (cfg : Config.LocalConfig) :
  Config.getLocalConfig L w = Ok cfg ->
  Config.validateLocalEnvConfig L w = Ok tt /\
  exists test,
    Config.useTestConfig L w = Ok test /\
    Config.parseNotificationSignEnv L w = Ok (Config.notifications cfg) /\
    Config.backend cfg = or_default (Config.getEnv w Config.envPrefix "BACKEND") "fixerio" /\
    Config.backendUri cfg = of_env (Config.getEnv w Config.envPrefix "BACKEND_URI") /\
    castBool L (Config.getEnv w Config.envPrefix "DEBUG_AUTOFUND") false =
      Ok (Config.debugAutoFund (Config.features cfg)) /\
    (Config.debugAutoFund (Config.features cfg) = true -> uses_admin w = true) /\
    (if uses_admin w then
       exists key' cert' ca',
         Config.read_if_set w (Config.getEnv w Config.envPrefix "ADMIN_KEY") = Ok key' /\
         Config.read_if_set w (Config.getEnv w Config.envPrefix "ADMIN_CERT") = Ok cert' /\
         Config.read_if_set w (Config.getEnv w Config.envPrefix "ADMIN_CA") = Ok ca' /\
         Config.admin cfg =
           omitBy_isUndefined
             [("username",
               VStr (or_default (Config.getEnv w Config.envPrefix "ADMIN_USER") "admin"));
              ("password", of_env (Config.getEnv w Config.envPrefix "ADMIN_PASS"));
              ("key", key'); ("cert", cert'); ("ca", ca')]
     else Config.admin cfg = VUndefined) /\
    (if test then
       Config.ledgerCredentials cfg = test_ledgerCredentials w /\
       Config.server cfg = VObject Plain [("base_uri", VStr "http://localhost")] /\
       Config.debugReplyNotifications (Config.features cfg) = true
     else
       Config.parseCredentials L w = Ok (Config.ledgerCredentials cfg) /\
       Config.server cfg = VObject Plain [] /\
       castBool L (Config.getEnv w Config.envPrefix "DEBUG_REPLY_NOTIFICATIONS") false =
         Ok (Config.debugReplyNotifications (Config.features cfg))).
Proof.
  unfold Config.getLocalConfig, uses_admin.
  destruct (Config.validateLocalEnvConfig L w) as [[]|]; simpl; [| discriminate].
  destruct (Config.parseLedgers L w) as [ledgers|]; simpl; [| discriminate].
  destruct (Config.parse L _) as [pairs|]; simpl; [| discriminate].
  destruct (castBool L (Config.getEnv w Config.envPrefix "DEBUG_AUTOFUND") false)
    as [autoFund|]; simpl; [| discriminate].
  destruct (castBool L (Config.getEnv w Config.envPrefix "DEBUG_REPLY_NOTIFICATIONS") false)
    as [replyNotifications|]; simpl; [| discriminate].
  unfold and_v. rewrite or_default_truthy by discriminate. rewrite truthy_or_v.
  destruct autoFund;
    destruct (truthy (of_env (Config.getEnv w Config.envPrefix "ADMIN_PASS"))
              || truthy (of_env (Config.getEnv w Config.envPrefix "ADMIN_KEY"))) eqn:Huse;
    simpl; try discriminate.
  - destruct (Config.read_if_set w (Config.getEnv w Config.envPrefix "ADMIN_KEY"))
      as [key'|]; simpl; [| discriminate].
    destruct (Config.read_if_set w (Config.getEnv w Config.envPrefix "ADMIN_CERT"))
      as [cert'|]; simpl; [| discriminate].
    destruct (Config.read_if_set w (Config.getEnv w Config.envPrefix "ADMIN_CA"))
      as [ca'|]; simpl; [| discriminate].
    assembly_tail L w; exists key', cert', ca'; repeat split; reflexivity.
  - destruct (Config.read_if_set w (Config.getEnv w Config.envPrefix "ADMIN_KEY"))
      as [key'|]; simpl; [| discriminate].
    destruct (Config.read_if_set w (Config.getEnv w Config.envPrefix "ADMIN_CERT"))
      as [cert'|]; simpl; [| discriminate].
    destruct (Config.read_if_set w (Config.getEnv w Config.envPrefix "ADMIN_CA"))
      as [ca'|]; simpl; [| discriminate].
    assembly_tail L w; exists key', cert', ca'; repeat split; reflexivity.
  - assembly_tail L w.
Qed.

End Parts.

(** ** What assembly depends on (C9) *)

Section Determinism.

Variable L : Libs.






End Determinism.



(** ** Omitting undefined properties *)

Lemma lookup_omit (k : string) (v : value) (ps : props) :
  lookup k ps = Some v ->
  is_undefined v = false ->
  lookup k (filter (fun kv => negb (is_undefined (snd kv))) ps) = Some v.
Proof.
  intros Hl Hv. induction ps as [|[k0 v0] r IH]; simpl in *; [discriminate |].
  destruct (String.eqb_spec k0 k) as [-> | Hne].
  - injection Hl as ->. rewrite Hv. simpl. now rewrite String.eqb_refl.
  - destruct (is_undefined v0); simpl; [now apply IH |].
    destruct (String.eqb_spec k0 k); [contradiction | now apply IH].
Qed.

Lemma lookup_omit_None (k : string) (ps : props) :
  lookup k ps = None ->
  lookup k (filter (fun kv => negb (is_undefined (snd kv))) ps) = None.
Proof.
  intros Hl. induction ps as [|[k0 v0] r IH]; simpl in *; [reflexivity |].
  destruct (String.eqb_spec k0 k) as [-> | Hne]; [discriminate |].
  destruct (is_undefined v0); simpl; [now apply IH |].
  destruct (String.eqb_spec k0 k); [contradiction | now apply IH].
Qed.

Lemma omit_defined (k : string) (v : value) (ps : props) :
  In (k, v) (filter (fun kv => negb (is_undefined (snd kv))) ps) ->
  is_undefined v = false.
Proof.
  intros H. apply filter_In in H. destruct H as [_ H]. simpl in H.
  now destruct (is_undefined v).
Qed.

(** ** The admin credential of an assembled configuration *)

(** [key && fs.readFileSync(key)] on a variable that is set and not empty
    returns the content of the file it names. *)
Lemma read_if_set_path (w : World) (p : string) (v : value) :
  p <> "" ->
  Config.read_if_set w (Some p) = Ok v ->
  exists content, files w p = inl content /\ v = VBuffer content.
Proof.
  intros Hp. unfold Config.read_if_set, js_and. simpl.
  destruct (String.eqb_spec p ""); [contradiction |]. simpl.
  destruct (files w p) as [content|m]; [| discriminate].
  intros [= <-]. now exists content.
Qed.

Section Admin.

Variable L : Libs.

(** X5.  In an assembled configuration the admin credential is undefined
    exactly when neither ADMIN_PASS nor ADMIN_KEY is set and not empty,
    and then the auto-fund feature is off.  Otherwise it is an object
    without undefined properties whose username is ADMIN_USER, or 'admin'
    when that is unset or empty, and whose key, cert and ca, for the
    variables that are set and not empty, are the contents of the files
    they name. *)
Theorem assembled_admin (w : World) (cfg : Config.LocalConfig) :
  Config.getLocalConfig L w = Ok cfg ->
  (uses_admin w = false ->
   Config.admin cfg = VUndefined /\ Config.debugAutoFund (Config.features cfg) = false) /\
  (uses_admin w = true ->
   exists ps,
     Config.admin cfg = VObject Plain ps /\
     lookup "username" ps =
       Some (VStr (or_default (Config.getEnv w Config.envPrefix "ADMIN_USER") "admin")) /\
     (forall k v, In (k, v) ps -> is_undefined v = false) /\
     (forall p, Config.getEnv w Config.envPrefix "ADMIN_KEY" = Some p -> p <> "" ->
        exists content, files w p = inl content /\ lookup "key" ps = Some (VBuffer content)) /\
     (forall p, Config.getEnv w Config.envPrefix "ADMIN_CERT" = Some p -> p <> "" ->
        exists content, files w p = inl content /\ lookup "cert" ps = Some (VBuffer content)) /\
     (forall p, Config.getEnv w Config.envPrefix "ADMIN_CA" = Some p -> p <> "" ->
        exists content, files w p = inl content /\ lookup "ca" ps = Some (VBuffer content))).
Proof.
  intros Hcfg.
  destruct (getLocalConfig_parts L w cfg Hcfg)
    as (_ & test & _ & _ & _ & _ & _ & Hauto & Hadmin & _).
  split.
  - intros Hu. rewrite Hu in Hadmin. split; [exact Hadmin |].
    destruct (Config.debugAutoFund (Config.features cfg)); [| reflexivity].
    specialize (Hauto eq_refl). congruence.
  - intros Hu. rewrite Hu in Hadmin.
    destruct Hadmin as (key' & cert' & ca' & Hk & Hc & Ha & ->).
    eexists. split; [reflexivity |].
    split; [apply lookup_omit; reflexivity |].
    split; [intros k v; apply omit_defined |]. repeat split.
    + intros p Hp Hne. rewrite Hp in Hk.
      destruct (read_if_set_path w p key' Hne Hk) as (content & Hf & ->).
      exists content. split; [exact Hf |]. apply lookup_omit; reflexivity.
    + intros p Hp Hne. rewrite Hp in Hc.
      destruct (read_if_set_path w p cert' Hne Hc) as (content & Hf & ->).
      exists content. split; [exact Hf |]. apply lookup_omit; reflexivity.
    + intros p Hp Hne. rewrite Hp in Ha.
      destruct (read_if_set_path w p ca' Hne Ha) as (content & Hf & ->).
      exists content. split; [exact Hf |]. apply lookup_omit; reflexivity.
Qed.

End Admin.

Lemma assembled_admin_witness :
  exists ps,
    Config.admin (Sample.assembled (Sample.world [("CONNECTOR_ADMIN_PASS", "secret")]))
      = VObject Plain ps /\
    lookup "username" ps = Some (VStr "admin").
Proof.
  destruct (proj2 (assembled_admin Sample.libs
                     (Sample.world [("CONNECTOR_ADMIN_PASS", "secret")])
                     (Sample.assembled (Sample.world [("CONNECTOR_ADMIN_PASS", "secret")]))
                     eq_refl) eq_refl) as (ps & Ha & Hu & _).
  exists ps. split; [exact Ha | exact Hu].
Defined.

(** ** Test mode *)

Lemma endsWith_append (p s : string) : endsWith (p ++ s) s = true.
Proof.
  unfold endsWith. rewrite length_append, Nat.add_sub, substring_tail, substring_whole.
  rewrite String.eqb_refl, andb_true_r. apply Nat.leb_le, Nat.le_add_l.
Qed.

Lemma substring_split (x : string) (n : nat) :
  n <= String.length x ->
  substring 0 n x ++ substring n (String.length x - n) x = x.
Proof.
  revert n. induction x as [|a r IH]; intros n Hn.
  - simpl in Hn. now replace n with 0 by lia.
  - destruct n as [|n]; simpl.
    + now rewrite substring_whole.
    + rewrite IH; [reflexivity | simpl in Hn; lia].
Qed.

Lemma endsWith_suffix (x s : string) :
  endsWith x s = true <-> exists p, x = p ++ s.
Proof.
  split.
  - unfold endsWith. intros H. apply andb_true_iff in H. destruct H as [Hl He].
    apply Nat.leb_le in Hl. apply String.eqb_eq in He.
    exists (substring 0 (String.length x - String.length s) x).
    pose proof (substring_split x (String.length x - String.length s)
                  (Nat.le_sub_l _ _)) as Hs.
    replace (String.length x - (String.length x - String.length s))
      with (String.length s) in Hs by lia.
    rewrite He in Hs. now symmetry.
  - intros [p ->]. apply endsWith_append.
Qed.

Section TestMode.

Variable L : Libs.

(** X6.  The test configuration is used when UNIT_TEST_OVERRIDE casts to
    false and either NODE_ENV is 'unit' (whatever the command
    line) or the command line is that of a mocha run: the program name
    ends in 'mocha', or it ends in 'node' and the first argument ends in
    'mocha'.  An override that casts to true switches it off whatever the
    rest, and one that the cast refuses makes the detection throw the
    error of the cast; an empty command line throws a TypeError unless
    NODE_ENV is 'unit'. *)
Theorem useTestConfig_detection (w : World) :
  (castBool L (env w "UNIT_TEST_OVERRIDE") false = Ok true ->
   Config.useTestConfig L w = Ok false) /\
  (forall e, castBool L (env w "UNIT_TEST_OVERRIDE") false = Throw e ->
   Config.useTestConfig L w = Throw e) /\
  (castBool L (env w "UNIT_TEST_OVERRIDE") false = Ok false ->
   (env w "NODE_ENV" = Some "unit" -> Config.useTestConfig L w = Ok true) /\
   (env w "NODE_ENV" <> Some "unit" ->
    (argv w = [] -> Config.useTestConfig L w = Throw TypeError) /\
    (forall a0 rest, argv w = a0 :: rest ->
       (mocha_run a0 rest -> Config.useTestConfig L w = Ok true) /\
       (~ mocha_run a0 rest -> Config.useTestConfig L w = Ok false)))).
Proof.
  unfold Config.useTestConfig, Config.isRunningTests, Config.env_is.
  split; [| split].
  - intros ->. reflexivity.
  - intros e ->. reflexivity.
  - intros ->. simpl bind. split.
    + intros ->. reflexivity.
    + intros Hne.
      assert (Hu : match env w "NODE_ENV" with Some s => s =? "unit" | None => false end
                   = false).
      { destruct (env w "NODE_ENV") as [s|]; [| reflexivity].
        destruct (String.eqb_spec s "unit"); [subst; contradiction | reflexivity]. }
      rewrite Hu. split.
      * intros ->. reflexivity.
      * intros a0 rest ->. unfold mocha_run. split.
        -- intros [[p ->] | (p & q & rest' & -> & ->)].
           ++ now rewrite endsWith_append.
           ++ destruct (endsWith (p ++ "node") "mocha"); [reflexivity |].
              simpl. now rewrite !endsWith_append.
        -- intros Hn. destruct (endsWith a0 "mocha") eqn:Hm.
           ++ exfalso. apply Hn. left. now apply endsWith_suffix.
           ++ f_equal. apply not_true_is_false. intros H.
              apply andb_true_iff in H. destruct H as [H H1].
              apply andb_true_iff in H. destruct H as [_ H0].
              destruct rest as [|a1 rest']; [discriminate |].
              apply endsWith_suffix in H0, H1.
              destruct H0 as [p ->], H1 as [q ->].
              apply Hn. right. now exists p, q, rest'.
Qed.

(** X7.  In test mode an assembled configuration carries the fixture
    credentials, the server base URI 'http://localhost' and
    debugReplyNotifications on, and the CREDENTIALS variable has still
    passed validation; outside test mode it carries the credentials
    parsed from CREDENTIALS, an empty server object and the
    DEBUG_REPLY_NOTIFICATIONS flag. *)
Theorem assembled_by_mode (w : World) (cfg : Config.LocalConfig) (test : bool) :
  Config.getLocalConfig L w = Ok cfg ->
  Config.useTestConfig L w = Ok test ->
  Config.validateCredentialsEnv L w = Ok tt /\
  if test then
    Config.ledgerCredentials cfg = test_ledgerCredentials w /\
    getIn (Config.server cfg) "base_uri" = VStr "http://localhost" /\
    Config.debugReplyNotifications (Config.features cfg) = true
  else
    Config.parseCredentials L w = Ok (Config.ledgerCredentials cfg) /\
    getIn (Config.server cfg) "base_uri" = VUndefined /\
    castBool L (Config.getEnv w Config.envPrefix "DEBUG_REPLY_NOTIFICATIONS") false =
      Ok (Config.debugReplyNotifications (Config.features cfg)).
Proof.
  intros Hcfg Ht.
  destruct (getLocalConfig_parts L w cfg Hcfg)
    as (Hv & test' & Ht' & _ & _ & _ & _ & _ & _ & Hmode).
  rewrite Ht in Ht'. injection Ht' as <-. split.
  - unfold Config.validateLocalEnvConfig in Hv.
    destruct (Config.validateNotificationEnv L w) as [[]|]; simpl in Hv; [| discriminate].
    destruct (Config.validateCredentialsEnv L w) as [[]|]; [reflexivity | discriminate].
  - destruct test.
    + destruct Hmode as (-> & -> & ->). repeat split.
    + destruct Hmode as (-> & -> & ->). repeat split.
Qed.

End TestMode.

Lemma assembled_by_mode_witness :
  Config.validateCredentialsEnv Sample.libs (Sample.world [("NODE_ENV", "unit")]) = Ok tt /\
  Config.ledgerCredentials (Sample.assembled (Sample.world [("NODE_ENV", "unit")])) =
    Sample.object [] /\
  getIn (Config.server (Sample.assembled (Sample.world [("NODE_ENV", "unit")]))) "base_uri"
    = VStr "http://localhost" /\
  Config.debugReplyNotifications
    (Config.features (Sample.assembled (Sample.world [("NODE_ENV", "unit")]))) = true.
Proof.
  exact (assembled_by_mode Sample.libs (Sample.world [("NODE_ENV", "unit")])
           (Sample.assembled (Sample.world [("NODE_ENV", "unit")])) true eq_refl eq_refl).
Defined.

(** ** Malformed JSON *)

Section Malformed.

Variable L : Libs.

Lemma parse_malformed (o : option string) (d : string) :
  malformed L o -> Config.parse L (or_default o d) = Throw SyntaxError.
Proof.
  intros (text & -> & Hne & Hp). unfold Config.parse, or_default.
  destruct (String.eqb_spec text ""); [contradiction |]. now rewrite Hp.
Qed.

(** X8.  When NOTIFICATION_KEYS is set and is not JSON: if the boolean
    cast of NOTIFICATION_VERIFY returns, assembly throws the error
    "Failed to parse CONNECTOR_NOTIFICATION_KEYS", whether verification
    is on or off and whatever the rest of the environment; if the cast
    refuses the value of NOTIFICATION_VERIFY, assembly throws the error
    of the cast instead, the cast coming before the parse. *)
Theorem malformed_notification_keys (w : World) :
  malformed L (Config.getEnv w Config.envPrefix "NOTIFICATION_KEYS") ->
  (forall b,
     castBool L (Config.getEnv w Config.envPrefix "NOTIFICATION_VERIFY")
       (Config.env_is w "NODE_ENV" "production") = Ok b ->
     Config.getLocalConfig L w =
     Throw (Error "Failed to parse CONNECTOR_NOTIFICATION_KEYS")) /\
  (forall e,
     castBool L (Config.getEnv w Config.envPrefix "NOTIFICATION_VERIFY")
       (Config.env_is w "NODE_ENV" "production") = Throw e ->
     Config.getLocalConfig L w = Throw e).
Proof.
  intros Hm. unfold Config.getLocalConfig, Config.validateLocalEnvConfig,
    Config.validateNotificationEnv, Config.parseNotificationSignEnv.
  split.
  - intros b ->. simpl. now rewrite (parse_malformed _ "{}" Hm).
  - intros e ->. reflexivity.
Qed.

(** X9.  Malformed JSON in the other three variables is not wrapped: a
    CREDENTIALS that is not JSON makes assembly throw the parser's
    SyntaxError once the notification check has passed, and so does a
    LEDGERS or a PAIRS that is not JSON once validation has passed. *)
Theorem malformed_json_SyntaxError (w : World) :
  (Config.validateNotificationEnv L w = Ok tt ->
   malformed L (Config.getEnv w Config.envPrefix "CREDENTIALS") ->
   Config.getLocalConfig L w = Throw SyntaxError) /\
  (Config.validateLocalEnvConfig L w = Ok tt ->
   malformed L (Config.getEnv w Config.envPrefix "LEDGERS") ->
   Config.getLocalConfig L w = Throw SyntaxError) /\
  (Config.validateLocalEnvConfig L w = Ok tt ->
   (exists ledgers, Config.parseLedgers L w = Ok ledgers) ->
   malformed L (Config.getEnv w Config.envPrefix "PAIRS") ->
   Config.getLocalConfig L w = Throw SyntaxError).
Proof.
  unfold Config.getLocalConfig. repeat split.
  - intros Hn Hm. unfold Config.validateLocalEnvConfig, Config.validateCredentialsEnv,
      Config.parseCredentialsEnv.
    now rewrite Hn, (parse_malformed _ "{}" Hm).
  - intros -> Hm. unfold Config.parseLedgers. now rewrite (parse_malformed _ "[]" Hm).
  - intros -> [ledgers ->] Hm. simpl. now rewrite (parse_malformed _ "false" Hm).
Qed.

End Malformed.

Lemma malformed_notification_keys_witness :
  Config.getLocalConfig Sample.libs
    (Sample.world [("CONNECTOR_NOTIFICATION_KEYS", "{oops")]) =
  Throw (Error "Failed to parse CONNECTOR_NOTIFICATION_KEYS").
Proof.
  refine (proj1 (malformed_notification_keys Sample.libs
                   (Sample.world [("CONNECTOR_NOTIFICATION_KEYS", "{oops")]) _)
                false eq_refl).
  exists "{oops". repeat split. discriminate.
Defined.

Example unexpected_verify_comes_first :
  Config.getLocalConfig Sample.libs
    (Sample.world [("CONNECTOR_NOTIFICATION_KEYS", "{oops");
                   ("CONNECTOR_NOTIFICATION_VERIFY", "on")]) =
  Throw (Error "castBool unexpected value: on").
Proof. reflexivity. Qed.

Example malformed_credentials :
  Config.getLocalConfig Sample.libs (Sample.world [("CONNECTOR_CREDENTIALS", "{oops")]) =
  Throw SyntaxError.
Proof. reflexivity. Qed.

(** ** Numeric overrides *)

Section Overrides.

Variable L : Libs.

Lemma num_or_override (x d : float) :
  (truthy (VNum x) = true -> Config.num_or x d = x) /\
  (is_zero x = true -> Config.num_or x d = d).
Proof.
  unfold Config.num_or. simpl. split.
  - intros ->. reflexivity.
  - intros ->. now rewrite orb_true_r.
Qed.

(** X10.  In an assembled configuration, an override of
    expiry.minMessageWindow, expiry.maxHoldTime, routeBroadcastInterval,
    routeCleanupInterval or routeExpiry that converts to a number other
    than zero is the value used, and one that converts to zero is
    replaced by the default; an override of fxSpread or slippage that is
    not empty is used as converted, zero included. *)
Theorem numeric_overrides (w : World) (cfg : Config.LocalConfig) :
  Config.getLocalConfig L w = Ok cfg ->
  (forall s, Config.getEnv w Config.envPrefix "MIN_MESSAGE_WINDOW" = Some s ->
     (truthy (VNum (ToNumber L s)) = true ->
      Config.minMessageWindow (Config.expiry cfg) = ToNumber L s) /\
     (is_zero (ToNumber L s) = true ->
      Config.minMessageWindow (Config.expiry cfg) = 1%float)) /\
  (forall s, Config.getEnv w Config.envPrefix "MAX_HOLD_TIME" = Some s ->
     (truthy (VNum (ToNumber L s)) = true ->
      Config.maxHoldTime (Config.expiry cfg) = ToNumber L s) /\
     (is_zero (ToNumber L s) = true ->
      Config.maxHoldTime (Config.expiry cfg) = 10%float)) /\
  (forall s, Config.getEnv w Config.envPrefix "ROUTE_BROADCAST_INTERVAL" = Some s ->
     (truthy (VNum (ToNumber L s)) = true ->
      Config.routeBroadcastInterval cfg = ToNumber L s) /\
     (is_zero (ToNumber L s) = true ->
      Config.routeBroadcastInterval cfg = 30000%float)) /\
  (forall s, Config.getEnv w Config.envPrefix "ROUTE_CLEANUP_INTERVAL" = Some s ->
     (truthy (VNum (ToNumber L s)) = true ->
      Config.routeCleanupInterval cfg = ToNumber L s) /\
     (is_zero (ToNumber L s) = true ->
      Config.routeCleanupInterval cfg = 1000%float)) /\
  (forall s, Config.getEnv w Config.envPrefix "ROUTE_EXPIRY" = Some s ->
     (truthy (VNum (ToNumber L s)) = true ->
      Config.routeExpiry cfg = ToNumber L s) /\
     (is_zero (ToNumber L s) = true ->
      Config.routeExpiry cfg = 45000%float)) /\
  (forall s, Config.getEnv w Config.envPrefix "FX_SPREAD" = Some s -> s <> "" ->
     Config.fxSpread cfg = ToNumber L s) /\
  (forall s, Config.getEnv w Config.envPrefix "SLIPPAGE" = Some s -> s <> "" ->
     Config.slippage cfg = ToNumber L s).
Proof.
  intros Hcfg.
  destruct (getLocalConfig_inv L w cfg Hcfg)
    as (_ & _ & _ & _ & _ & _ & _ & Hmin & Hmax & Hfx & Hsl & Hrb & Hrc & Hre).
  split; [intros s Hs; rewrite Hmin, Hs; apply num_or_override |].
  split; [intros s Hs; rewrite Hmax, Hs; apply num_or_override |].
  split; [intros s Hs; rewrite Hrb, Hs; apply num_or_override |].
  split; [intros s Hs; rewrite Hrc, Hs; apply num_or_override |].
  split; [intros s Hs; rewrite Hre, Hs; apply num_or_override |].
  split; intros s Hs Hne.
  - rewrite Hfx, Hs. simpl. now destruct (String.eqb_spec s "").
  - rewrite Hsl, Hs. simpl. now destruct (String.eqb_spec s "").
Qed.

End Overrides.

Lemma numeric_overrides_witness :
  Config.fxSpread (Sample.assembled (Sample.world [("CONNECTOR_FX_SPREAD", "0")]))
  = 0%float.
Proof.
  refine (proj1 (proj2 (proj2 (proj2 (proj2 (proj2
            (numeric_overrides Sample.libs
               (Sample.world [("CONNECTOR_FX_SPREAD", "0")])
               (Sample.assembled (Sample.world [("CONNECTOR_FX_SPREAD", "0")]))
               eq_refl)))))) "0" eq_refl _).
  discriminate.
Defined.

Example zero_route_expiry_falls_back :
  Config.routeExpiry (Sample.assembled (Sample.world [("CONNECTOR_ROUTE_EXPIRY", "0")]))
  = 45000%float.
Proof. reflexivity. Qed.

(** ** Credentials resolved from files: [parseCredentials] *)

Lemma readFileSync_Ok (w : World) (v x : value) :
  Config.readFileSync w v = Ok x ->
  exists p content, v = VStr p /\ files w p = inl content /\ x = VBuffer content.
Proof.
  destruct v; simpl; try discriminate.
  destruct (files w s) as [content|m] eqn:Hf; [| discriminate].
  intros [= <-]. now exists s, content.
Qed.

Lemma guarded_read_Ok (w : World) (a x : value) :
  js_and a (Config.readFileSync w a) = Ok x ->
  if truthy a
  then exists p content, a = VStr p /\ files w p = inl content /\ x = VBuffer content
  else x = a.
Proof.
  unfold js_and. destruct (truthy a).
  - apply readFileSync_Ok.
  - now intros [= <-].
Qed.

Section ParsedCredentials.

Variable L : Libs.
Variable w : World.

(** X11.  When [parseCredentials] resolves a credential object it returns
    a plain object with no undefined property, in which every property
    other than key, cert and ca is as it was; if the credential has a key,
    its key and cert are paths of readable files and are replaced by the
    contents of those files; and if its ca is truthy it is the path of a
    readable file and is replaced by the content of that file. *)
Theorem parseCredential_object (kd : ObjKind) (cps : props) (c' : value) :
  Config.parseCredential w (VObject kd cps) = Ok c' ->
  exists cps',
    c' = VObject Plain cps' /\
    (forall k v, In (k, v) cps' -> is_undefined v = false) /\
    (forall k, k <> "key" -> k <> "cert" -> k <> "ca" ->
       (forall v, lookup k cps = Some v -> is_undefined v = false ->
                  lookup k cps' = Some v) /\
       (lookup k cps = None -> lookup k cps' = None)) /\
    (missing (VObject kd cps) "key" = false ->
     exists p content q content',
       field (VObject kd cps) "key" = VStr p /\ files w p = inl content /\
       lookup "key" cps' = Some (VBuffer content) /\
       field (VObject kd cps) "cert" = VStr q /\ files w q = inl content' /\
       lookup "cert" cps' = Some (VBuffer content')) /\
    (truthy (field (VObject kd cps) "ca") = true ->
     exists p content,
       field (VObject kd cps) "ca" = VStr p /\ files w p = inl content /\
       lookup "ca" cps' = Some (VBuffer content)).
Proof.
  unfold Config.parseCredential, missing, field, getIn. simpl. plain_names.
  set (k := match lookup "key" cps with Some v => v | None => VUndefined end).
  set (c := match lookup "cert" cps with Some v => v | None => VUndefined end).
  set (a := match lookup "ca" cps with Some v => v | None => VUndefined end).
  destruct (is_undefined k) eqn:Hk; simpl.
  - destruct (js_and a (Config.readFileSync w a)) as [ca'|] eqn:Ha; simpl; [| discriminate].
    intros [= <-]. eexists. split; [reflexivity |].
    split; [intros k0 v; apply omit_defined |].
    split; [| split; [discriminate |]].
    + intros k0 _ _ Hca. split.
      * intros v Hv Hd. apply lookup_omit; [| exact Hd].
        now rewrite lookup_update_other.
      * intros Hn. apply lookup_omit_None. now rewrite lookup_update_other.
    + intros Hta. apply guarded_read_Ok in Ha. rewrite Hta in Ha.
      destruct Ha as (p & content & Hp & Hf & ->).
      exists p, content. repeat split; auto.
      apply lookup_omit; [apply lookup_update_same | reflexivity].
  - destruct (Config.readFileSync w k) as [key'|] eqn:Hrk; simpl; [| discriminate].
    destruct (Config.readFileSync w c) as [cert'|] eqn:Hrc; simpl; [| discriminate].
    destruct (js_and a (Config.readFileSync w a)) as [ca'|] eqn:Ha; simpl; [| discriminate].
    intros [= <-]. eexists. split; [reflexivity |].
    split; [intros k0 v; apply omit_defined |].
    apply readFileSync_Ok in Hrk. destruct Hrk as (p & content & Hp & Hf & ->).
    apply readFileSync_Ok in Hrc. destruct Hrc as (q & content' & Hq & Hf' & ->).
    split; [| split].
    + intros k0 Hkey Hcert Hca. split.
      * intros v Hv Hd. apply lookup_omit; [| exact Hd].
        now rewrite !lookup_update_other.
      * intros Hn. apply lookup_omit_None. now rewrite !lookup_update_other.
    + intros _. exists p, content, q, content'. repeat split; auto.
      * apply lookup_omit; [| reflexivity].
        rewrite !lookup_update_other by discriminate. apply lookup_update_same.
      * apply lookup_omit; [| reflexivity].
        rewrite lookup_update_other by discriminate. apply lookup_update_same.
    + intros Hta. apply guarded_read_Ok in Ha. rewrite Hta in Ha.
      destruct Ha as (p0 & content0 & Hp0 & Hf0 & ->).
      exists p0, content0. repeat split; auto.
      apply lookup_omit; [apply lookup_update_same | reflexivity].
Qed.

Lemma mapValues_Ok (f : value -> Result value) (ps ps' : props) :
  Config.mapValues f ps = Ok ps' ->
  map fst ps' = map fst ps /\
  Forall2 (fun kv kv' => f (snd kv) = Ok (snd kv')) ps ps'.
Proof.
  revert ps'. induction ps as [|[k v] r IH]; simpl; intros ps'.
  - intros [= <-]. split; [reflexivity | constructor].
  - destruct (f v) as [v'|] eqn:Hv; simpl; [| discriminate].
    destruct (Config.mapValues f r) as [r'|]; simpl; [| discriminate].
    intros [= <-]. destruct (IH r' eq_refl) as [Hk Hf]. simpl. split.
    + now rewrite Hk.
    + constructor; [exact Hv | exact Hf].
Qed.

(** X12.  [parseCredentials] returns a plain object with the ledger ids
    of the parsed CREDENTIALS map, in the same order, each with the
    credential resolved from the one under that id. *)
Theorem parseCredentials_ids (creds' : value) :
  Config.parseCredentials L w = Ok creds' ->
  exists creds ps',
    Config.parseCredentialsEnv L w = Ok creds /\
    creds' = VObject Plain ps' /\
    map fst ps' = map fst (entries creds) /\
    Forall2 (fun kv kv' => Config.parseCredential w (snd kv) = Ok (snd kv'))
            (entries creds) ps'.
Proof.
  unfold Config.parseCredentials.
  destruct (Config.parseCredentialsEnv L w) as [creds|]; simpl; [| discriminate].
  destruct (Config.mapValues _ _) as [ps'|] eqn:Hm; simpl; [| discriminate].
  intros [= <-]. exists creds, ps'. apply mapValues_Ok in Hm. tauto.
Qed.

End ParsedCredentials.

(** ** The handles of a built registry *)

Section Handles.

Variable L : Libs.
Variable cfg : Config.LocalConfig.

(** A turn of the loop succeeds on a credential object only. *)
Lemma buildLedger_Ok (ledgerId : string) (handle : Multiledger.LedgerPlugin)
    (lines : list Multiledger.LogEntry) :
  Multiledger.buildLedger L cfg ledgerId = (Ok handle, lines) ->
  exists kd cps, getIn (Config.ledgerCredentials cfg) ledgerId = VObject kd cps.
Proof.
  unfold Multiledger.buildLedger.
  destruct (getIn (Config.ledgerCredentials cfg) ledgerId) eqn:Hc;
    try (simpl; discriminate);
    try (unfold Multiledger.migrate; simpl; destruct (truthy _); simpl; discriminate).
  intros _. now exists kind, props0.
Qed.

Lemma type_of_truthy (cps : props) : truthy (type_of cps) = true.
Proof.
  unfold type_of, or_v.
  destruct (truthy (match lookup "type" cps with Some v => v | None => VUndefined end))
    eqn:Ht; [exact Ht | reflexivity].
Qed.

Lemma migrated_account_uri (cps : props) :
  truthy (match lookup "account_uri" (fst (migrated cps)) with
          | Some v => v
          | None => VUndefined
          end) = false.
Proof.
  unfold migrated. destruct (lookup "account_uri" cps) as [uri|] eqn:Hu.
  - destruct (truthy uri) eqn:Ht; simpl.
    + now rewrite lookup_remove_same.
    + now rewrite Hu.
  - simpl. now rewrite Hu.
Qed.

Lemma require_Ok (name m : string) :
  Multiledger.require L name = Ok m -> m = name /\ plugin_installed L name = true.
Proof.
  unfold Multiledger.require. destruct (plugin_installed L name); [| discriminate].
  intros [= <-]. auto.
Qed.

(** X13.  In a registry that was built, every handle is registered under
    a ledger id of the configuration and was constructed with that id,
    from a credential object; the credential it was given has a truthy
    type, the credential's own or 'bells', and no truthy account_uri; its
    plugin is the installed module ilp-plugin-TYPE and its logger is
    plugin-TYPE. *)
Theorem registry_handles (ls : list (string * Multiledger.LedgerPlugin))
    (ledgerId : string) (handle : Multiledger.LedgerPlugin) :
  fst (Multiledger.buildLedgers L cfg) = Ok ls ->
  lookup ledgerId ls = Some handle ->
  In ledgerId (ledger_ids cfg) /\
  Multiledger.id (Multiledger.options handle) = ledgerId /\
  exists kd cps,
    getIn (Config.ledgerCredentials cfg) ledgerId = VObject kd cps /\
    getIn (Multiledger.auth (Multiledger.options handle)) "type" = type_of cps /\
    truthy (type_of cps) = true /\
    truthy (getIn (Multiledger.auth (Multiledger.options handle)) "account_uri") = false /\
    Multiledger.plugin handle = Multiledger.concat_value L "ilp-plugin-" (type_of cps) /\
    plugin_installed L (Multiledger.plugin handle) = true /\
    Multiledger.log (Multiledger.options handle) =
      Multiledger.concat_value L "plugin-" (type_of cps).
Proof.
  unfold Multiledger.buildLedgers, ledger_ids. intros Hb Hl.
  destruct (Multiledger.Object_keys (Config.ledgerCredentials cfg)) as [ids|] eqn:Hk;
    [| discriminate].
  assert (Hids : ids = map fst (entries (Config.ledgerCredentials cfg))).
  { unfold Multiledger.Object_keys in Hk.
    destruct (Config.ledgerCredentials cfg); try discriminate; now injection Hk as <-. }
  destruct (Multiledger.forEach_key L cfg ids []) as [res lines] eqn:Hf.
  simpl in Hb. subst res.
  destruct (forEach_key_lookup L cfg ids [] ls lines ledgerId Hf) as [Hin Hout].
  destruct (in_dec string_dec ledgerId ids) as [Hi | Hi].
  2: { rewrite (Hout Hi) in Hl. discriminate. }
  destruct (Hin Hi) as (h & l & Hturn & Hls & _).
  rewrite Hl in Hls. injection Hls as <-.
  destruct (buildLedger_Ok ledgerId handle l Hturn) as (kd & cps & Hc).
  rewrite (buildLedger_object L cfg ledgerId kd cps Hc) in Hturn.
  injection Hturn as Hturn _.
  destruct (Multiledger.require L _) as [m|] eqn:Hr; simpl in Hturn; [| discriminate].
  injection Hturn as <-. apply require_Ok in Hr. destruct Hr as [-> Hinst].
  split; [now rewrite <- Hids |]. split; [reflexivity |].
  exists kd, cps. simpl. unfold getIn. simpl.
  rewrite lookup_update_same, lookup_update_other by discriminate.
  repeat split; auto using type_of_truthy, migrated_account_uri.
Qed.




End Handles.

Lemma parseCredential_object_witness :
  exists cps',
    VObject Plain key_credential_read = VObject Plain cps' /\
    (forall k v, In (k, v) cps' -> is_undefined v = false).
Proof.
  destruct (parseCredential_object (on_key_disk []) Plain key_credential
              (VObject Plain key_credential_read) eq_refl)
    as (cps' & Hc & Hd & _).
  exists cps'. split; [exact Hc | exact Hd].
Defined.

Lemma parseCredentials_ids_witness :
  exists creds ps',
    Config.parseCredentialsEnv Sample.libs
      (Sample.world (credentials_of Sample.complete)) = Ok creds /\
    Sample.object [(Sample.usd, Sample.complete)] = VObject Plain ps' /\
    map fst ps' = map fst (entries creds) /\
    Forall2 (fun kv kv' =>
               Config.parseCredential (Sample.world (credentials_of Sample.complete))
                 (snd kv) = Ok (snd kv'))
            (entries creds) ps'.
Proof.
  exact (parseCredentials_ids Sample.libs (Sample.world (credentials_of Sample.complete))
           (Sample.object [(Sample.usd, Sample.complete)]) eq_refl).
Defined.

Lemma registry_handles_witness :
  In Sample.usd (ledger_ids (configured (Sample.object [(Sample.usd, Sample.complete)]))) /\
  Multiledger.plugin
    {| Multiledger.plugin := "ilp-plugin-bells";
       Multiledger.options :=
         {| Multiledger.id := Sample.usd;
            Multiledger.auth :=
              Sample.object
                [("username", VStr "mark"); ("password", VStr "mark");
                 ("account", VStr "http://usd-ledger.example/accounts/mark");
                 ("type", VStr "bells")];
            Multiledger.debugReplyNotifications := false;
            Multiledger.debugAutofund := None;
            Multiledger.log := "plugin-bells" |} |} = "ilp-plugin-bells".
Proof.
  destruct (registry_handles Sample.libs
              (configured (Sample.object [(Sample.usd, Sample.complete)]))
              (built (configured (Sample.object [(Sample.usd, Sample.complete)])))
              Sample.usd
              {| Multiledger.plugin := "ilp-plugin-bells";
                 Multiledger.options :=
                   {| Multiledger.id := Sample.usd;
                      Multiledger.auth :=
                        Sample.object
                          [("username", VStr "mark"); ("password", VStr "mark");
                           ("account", VStr "http://usd-ledger.example/accounts/mark");
                           ("type", VStr "bells")];
                      Multiledger.debugReplyNotifications := false;
                      Multiledger.debugAutofund := None;
                      Multiledger.log := "plugin-bells" |} |}
              eq_refl eq_refl) as (Hin & _ & _).
  split; [exact Hin | reflexivity].
Defined.


Example getType_of_a_configured_ledger :
  fst (Multiledger.getType (fun plugin => VStr plugin) Sample.usd
         (registry_of (configured (Sample.object [(Sample.usd, Sample.complete)])))) =
  Ok (VStr "ilp-plugin-bells").
Proof. reflexivity. Qed.

Example getType_of_an_unknown_ledger :
  fst (Multiledger.getType (fun plugin => VStr plugin) Sample.eur
         (registry_of (configured (Sample.object [(Sample.usd, Sample.complete)])))) =
  Throw TypeError.
Proof. reflexivity. Qed.

Example getType_of_an_inherited_name :
  fst (Multiledger.getLedger "constructor" (registry_of Sample.blank)) =
    Multiledger.Inherited "constructor" /\
  fst (Multiledger.getType (fun plugin => VStr plugin) "constructor"
         (registry_of Sample.blank)) = Ok VUndefined.
Proof. split; reflexivity. Qed.

(** ** The registry of a frozen configuration *)

Lemma deep_freeze_not_object (v : value) (kd : ObjKind) (cps : props) :
  deep_freeze v <> VObject kd cps.
Proof. destruct v; discriminate. Qed.

Lemma lookup_chars (k : string) (s : string) (i : nat) (v : value) :
  lookup k (index_from i (chars s)) = Some v -> exists c, v = VStr c.
Proof.
  revert i. induction s as [|a r IH]; intros i; simpl; [discriminate |].
  destruct (index_key i =? k); [intros [= <-]; now eexists | apply IH].
Qed.

(** Nothing read from a frozen value is a writable object. *)
Lemma getIn_deep_freeze (o : value) (k : string) (kd : ObjKind) (cps : props) :
  getIn (deep_freeze o) k <> VObject kd cps.
Proof.
  assert (Hin : inherited k <> VObject kd cps).
  { destruct (inherited_cases k) as [-> | ->]; discriminate. }
  assert (Hps : forall ps : props,
             match lookup k
                     ((fix each (l : list (string * value)) : list (string * value) :=
                         match l with
                         | [] => []
                         | (k0, x) :: r => (k0, deep_freeze x) :: each r
                         end) ps)
             with
             | Some v => v
             | None => inherited k
             end <> VObject kd cps).
  { induction ps as [|[k0 x] r IH]; simpl; [exact Hin |].
    destruct (k0 =? k); [apply deep_freeze_not_object | exact IH]. }
  unfold getIn. destruct o; simpl; try exact Hin; try discriminate; try apply Hps.
  destruct (lookup k (index_from 0 (chars s))) as [v|] eqn:Hl; [| exact Hin].
  destruct (lookup_chars _ _ _ _ Hl) as [c ->]. discriminate.
Qed.

(** Freezing keeps the keys. *)
Lemma entries_deep_freeze (o : value) :
  map fst (entries (deep_freeze o)) = map fst (entries o).
Proof.
  destruct o; simpl; try reflexivity;
    induction props0 as [|[k x] r IH]; simpl; [reflexivity | now rewrite IH | reflexivity
                                               | now rewrite IH].
Qed.

Section FrozenRegistry.

Variable L : Libs.

(** A turn of the loop throws a TypeError on whatever is not a writable
    object: on null and undefined at the read of [account_uri], and
    otherwise at the write of [account] or of [type]. *)
Lemma buildLedger_unwritable (cfg : Config.LocalConfig) (ledgerId : string) :
  (forall kd cps, getIn (Config.ledgerCredentials cfg) ledgerId <> VObject kd cps) ->
  fst (Multiledger.buildLedger L cfg ledgerId) = Throw TypeError.
Proof.
  intros Hc. unfold Multiledger.buildLedger, Multiledger.migrate.
  destruct (getIn (Config.ledgerCredentials cfg) ledgerId) eqn:Hg;
    try reflexivity;
    try (simpl get_prop; cbv iota; destruct (truthy _); reflexivity).
  exfalso. exact (Hc _ _ eq_refl).
Qed.

(** X15.  From frozen ledger credentials (the credentials map with
    [Object.freeze] applied to it and, recursively, to what it holds, as
    in the immutable configuration that [loadConnectorConfig] hands
    over) the registry cannot be built unless there is no ledger: the
    turn of every configured ledger throws a TypeError, at the
    strict-mode write of [account] or of [type] on its credential,
    whatever the credential holds and whichever plugin modules are
    installed.  So the build throws a TypeError as soon as there is one
    ledger credential, and it returns the empty registry, logging
    nothing, when there is none. *)
Theorem registry_of_frozen_credentials (cfg : Config.LocalConfig) (credentials : value) :
  Config.ledgerCredentials cfg = deep_freeze credentials ->
  (forall ledgerId, In ledgerId (ledger_ids cfg) ->
     fst (Multiledger.buildLedger L cfg ledgerId) = Throw TypeError) /\
  (ledger_ids cfg <> [] -> fst (Multiledger.buildLedgers L cfg) = Throw TypeError) /\
  (ledger_ids cfg = [] -> nullish (Config.ledgerCredentials cfg) = false ->
   Multiledger.buildLedgers L cfg = (Ok [], [])).
Proof.
  intros Hfrozen.
  assert (Hturn : forall ledgerId,
             fst (Multiledger.buildLedger L cfg ledgerId) = Throw TypeError).
  { intros ledgerId. apply buildLedger_unwritable. intros kd cps.
    rewrite Hfrozen. apply getIn_deep_freeze. }
  split; [intros ledgerId _; apply Hturn |].
  unfold ledger_ids, Multiledger.buildLedgers. split.
  - intros Hne.
    destruct (nullish (Config.ledgerCredentials cfg)) eqn:Hn.
    { destruct (Config.ledgerCredentials cfg); try discriminate; now elim Hne. }
    rewrite (Object_keys_entries _ Hn).
    destruct (map fst (entries (Config.ledgerCredentials cfg)))
      as [|ledgerId rest]; [now elim Hne |].
    simpl. specialize (Hturn ledgerId).
    destruct (Multiledger.buildLedger L cfg ledgerId)
      as [[h|e'] l]; simpl in Hturn; [discriminate | now injection Hturn as ->].
  - intros He Hn. rewrite (Object_keys_entries _ Hn), He. reflexivity.
Qed.

End FrozenRegistry.

Lemma registry_of_frozen_credentials_witness :
  fst (Multiledger.buildLedgers Sample.libs
         (Config.loadConfig
            (Sample.assembled (Sample.world (credentials_of Sample.complete))))) =
  Throw TypeError.
Proof.
  refine (proj1 (proj2 (registry_of_frozen_credentials Sample.libs
                          (Config.loadConfig
                             (Sample.assembled
                                (Sample.world (credentials_of Sample.complete))))
                          (Sample.object [(Sample.usd, Sample.complete)])
                          eq_refl)) _).
  discriminate.
Defined.

(** The configuration [loadConnectorConfig] returns for a process with
    one complete credential, and the registry built from it *)
Example loaded_configuration :
  Config.loadConnectorConfig Sample.libs (Sample.world (credentials_of Sample.complete)) =
  Ok (Config.loadConfig
        (Sample.assembled (Sample.world (credentials_of Sample.complete)))) /\
  Multiledger.buildLedgers Sample.libs
    (Config.loadConfig
       (Sample.assembled (Sample.world (credentials_of Sample.complete)))) =
  (Throw TypeError, [Multiledger.deprecation]).
Proof. split; reflexivity. Qed.

Example registry_of_a_frozen_credential :
  Multiledger.buildLedgers Sample.libs
    (Config.loadConfig (configured (Sample.object [(Sample.usd, Sample.complete)]))) =
  (Throw TypeError, [Multiledger.deprecation]).
Proof. reflexivity. Qed.

Example registry_of_a_frozen_renamed_credential :
  Multiledger.buildLedgers Sample.libs
    (Config.loadConfig (configured (Sample.object [(Sample.usd, Sample.renamed)]))) =
  (Throw TypeError, []).
Proof. reflexivity. Qed.

(** ** An explicit PAIRS *)

Section ExplicitPairs.

Variable L : Libs.

(** X16.  When PAIRS (or the default 'false') parses to a truthy value,
    that value is the assembled trading pairs as it is, outside test mode
    and, in test mode, unless its length is falsy; when it parses to a
    falsy value (false, null, 0, an empty string) the default pairs are
    generated. *)
Theorem explicit_pairs (w : World) (cfg : Config.LocalConfig) (pairs : value) (test : bool) :
  Config.getLocalConfig L w = Ok cfg ->
  Config.parse L (or_default (Config.getEnv w Config.envPrefix "PAIRS") "false") = Ok pairs ->
  Config.useTestConfig L w = Ok test ->
  (truthy pairs = true ->
   (test = false -> Config.tradingPairs cfg = pairs) /\
   (empty_length pairs = Ok false -> Config.tradingPairs cfg = pairs)) /\
  (truthy pairs = false -> test = false ->
   forall ledgers, Config.parseLedgers L w = Ok ledgers ->
     Config.tradingPairs cfg = Config.generateDefaultPairs L ledgers).
Proof.
  intros Hcfg Hp Ht.
  destruct (getLocalConfig_inv L w cfg Hcfg)
    as (ledgers' & pairs' & test' & Hl' & Hp' & Ht' & Htp & _).
  rewrite Hp in Hp'. injection Hp' as <-.
  rewrite Ht in Ht'. injection Ht' as <-.
  unfold resolved_pairs, or_v in Htp. split.
  - intros Htr. rewrite Htr in Htp. split.
    + intros ->. exact Htp.
    + intros He. destruct test; [| exact Htp].
      destruct Htp as (empty & He' & ->). rewrite He in He'. now injection He' as <-.
  - intros Hf -> ledgers Hl. rewrite Hf in Htp. rewrite Hl in Hl'. now injection Hl' as <-.
Qed.

End ExplicitPairs.

Lemma explicit_pairs_witness :
  Config.tradingPairs
    (Sample.assembled
       (Sample.world [("CONNECTOR_PAIRS", snd Sample.two_ledgers)])) =
  mk_array [VStr "USD@http://usd-ledger.example"; VStr "EUR@http://eur-ledger.example"].
Proof.
  refine (proj1 (proj1 (explicit_pairs Sample.libs
                          (Sample.world [("CONNECTOR_PAIRS", snd Sample.two_ledgers)])
                          (Sample.assembled
                             (Sample.world [("CONNECTOR_PAIRS", snd Sample.two_ledgers)]))
                          (mk_array [VStr "USD@http://usd-ledger.example";
                                     VStr "EUR@http://eur-ledger.example"])
                          false eq_refl eq_refl eq_refl) eq_refl) eq_refl).
Defined.

(** ** The log of a registry build *)

Section BuildLog.

Variable L : Libs.
Variable cfg : Config.LocalConfig.

Lemma buildLedger_lines (ledgerId : string) (handle : Multiledger.LedgerPlugin)
    (lines : list Multiledger.LogEntry) :
  Multiledger.buildLedger L cfg ledgerId = (Ok handle, lines) ->
  lines = if has_legacy_account cfg ledgerId then [Multiledger.deprecation] else [].
Proof.
  intros Hb. destruct (buildLedger_Ok L cfg ledgerId handle lines Hb) as (kd & cps & Hc).
  rewrite (buildLedger_object L cfg ledgerId kd cps Hc) in Hb.
  injection Hb as _ <-. unfold has_legacy_account, migrated. rewrite Hc.
  unfold getIn. simpl.
  destruct (lookup "account_uri" cps) as [uri|]; [| reflexivity].
  now destruct (truthy uri).
Qed.

Lemma forEach_key_lines (ids : list string)
    (acc ls : list (string * Multiledger.LedgerPlugin))
    (lines : list Multiledger.LogEntry) :
  Multiledger.forEach_key L cfg ids acc = (Ok ls, lines) ->
  lines = map (fun _ => Multiledger.deprecation) (filter (has_legacy_account cfg) ids).
Proof.
  revert acc lines. induction ids as [|a r IH]; intros acc lines; simpl.
  - now intros [= _ <-].
  - destruct (Multiledger.buildLedger L cfg a) as [[h|e] l] eqn:Ha; [| discriminate].
    destruct (Multiledger.forEach_key L cfg r (update a h acc)) as [res l'] eqn:Hr.
    intros [= -> <-]. rewrite (IH _ _ Hr), (buildLedger_lines a h l Ha).
    now destruct (has_legacy_account cfg a).
Qed.

(** X17.  A registry build that succeeds logs the deprecation warning
    once for each ledger whose credential has a truthy account_uri, and
    nothing else. *)
Theorem buildLedgers_log (ls : list (string * Multiledger.LedgerPlugin)) :
  fst (Multiledger.buildLedgers L cfg) = Ok ls ->
  snd (Multiledger.buildLedgers L cfg) =
  map (fun _ => Multiledger.deprecation)
      (filter (has_legacy_account cfg) (ledger_ids cfg)).
Proof.
  unfold Multiledger.buildLedgers, ledger_ids.
  destruct (Multiledger.Object_keys (Config.ledgerCredentials cfg)) as [ids|] eqn:Hk;
    [| discriminate].
  assert (Hids : ids = map fst (entries (Config.ledgerCredentials cfg))).
  { unfold Multiledger.Object_keys in Hk.
    destruct (Config.ledgerCredentials cfg); try discriminate; now injection Hk as <-. }
  destruct (Multiledger.forEach_key L cfg ids []) as [res lines] eqn:Hf.
  simpl. intros ->. rewrite <- Hids. exact (forEach_key_lines ids [] ls lines Hf).
Qed.

End BuildLog.

Lemma buildLedgers_log_witness :
  snd (Multiledger.buildLedgers Sample.libs
         (configured (Sample.object [(Sample.usd, Sample.complete);
                                     (Sample.eur, Sample.renamed)]))) =
  map (fun _ => Multiledger.deprecation)
      (filter (has_legacy_account
                 (configured (Sample.object [(Sample.usd, Sample.complete);
                                             (Sample.eur, Sample.renamed)])))
              (ledger_ids
                 (configured (Sample.object [(Sample.usd, Sample.complete);
                                             (Sample.eur, Sample.renamed)])))).
Proof.
  apply (buildLedgers_log Sample.libs
           (configured (Sample.object [(Sample.usd, Sample.complete);
                                       (Sample.eur, Sample.renamed)]))
           (built (configured (Sample.object [(Sample.usd, Sample.complete);
                                              (Sample.eur, Sample.renamed)])))).
  reflexivity.
Defined.

Example one_warning_for_two_ledgers :
  snd (Multiledger.buildLedgers Sample.libs
         (configured (Sample.object [(Sample.usd, Sample.complete);
                                     (Sample.eur, Sample.renamed)]))) =
  [Multiledger.deprecation].
Proof. reflexivity. Qed.

(** ** The first credential that fails *)

Section FirstFailure.

Variable L : Libs.

Lemma forEach_first (f : value -> string -> Result unit) (before : props)
    (k : string) (v : value) (after : props) (e : JsError) :
  (forall k' v', In (k', v') before -> f v' k' = Ok tt) ->
  f v k = Throw e ->
  Config.forEach f (before ++ (k, v) :: after)%list = Throw e.
Proof.
  intros Hb He. induction before as [|[k0 v0] r IH]; simpl.
  - now rewrite He.
  - rewrite (Hb k0 v0 (or_introl eq_refl)). simpl.
    apply IH. intros k' v' H. apply Hb. now right.
Qed.

(** X18.  Credential validation reports the first credential whose check
    throws, in the order in which [_.forEach] visits the CREDENTIALS map
    (its own entries in their order, or the indices below its [length]
    when it has one that is a valid array length): the credentials after
    it are not looked at. *)
Theorem validateCredentialsEnv_first (w : World) (creds : value) (before : props)
    (ledger : string) (c : value) (after : props) (e : JsError) :
  Config.parseCredentialsEnv L w = Ok creds ->
  each_entries creds = (before ++ (ledger, c) :: after)%list ->
  (forall ledger' c', In (ledger', c') before ->
     Config.validateCredential w c' ledger' = Ok tt) ->
  Config.validateCredential w c ledger = Throw e ->
  Config.validateCredentialsEnv L w = Throw e.
Proof.
  intros Hp He Hb Hc. unfold Config.validateCredentialsEnv. rewrite Hp. simpl.
  rewrite He. now apply forEach_first.
Qed.

End FirstFailure.

Lemma validateCredentialsEnv_first_witness :
  Config.validateCredentialsEnv
    (libs_reading [VBool false; Sample.object []; mk_array []; three_credentials])
    (Sample.world [("CONNECTOR_CREDENTIALS", Sample.stringify three_credentials)]) =
  Throw (Error "Missing username for ledger: http://eur-ledger.example").
Proof.
  apply (validateCredentialsEnv_first
           (libs_reading [VBool false; Sample.object []; mk_array []; three_credentials])
           (Sample.world [("CONNECTOR_CREDENTIALS", Sample.stringify three_credentials)])
           three_credentials
           [(Sample.usd, Sample.complete)]
           Sample.eur Sample.no_username
           [("http://gbp-ledger.example", Sample.renamed)]).
  - reflexivity.
  - reflexivity.
  - intros ledger' c' [[= <- <-] | []]. reflexivity.
  - reflexivity.
Defined.
